(** * jasmine_eth.sdk: a shallow embedding of the Ethereum SDK

    The embedded module is [src/jasmine_eth/sdk.py].  Python objects that the
    code shares by reference (the [TxParams] dict handed to
    [send_transaction], the asyncio future) live in an explicit store; the
    [web3] object the classes wrap is a record of the library entry points
    the code calls.  Exceptions are values carrying their class name. *)

From Stdlib Require Import ZArith Lia List.
From Stdlib.Strings Require Byte.
From Stdlib.Strings Require Import Ascii String.
From stdpp Require Import gmap strings list fin_maps.

Local Open Scope string_scope.
Local Open Scope list_scope.
Local Open Scope Z_scope.

(** ** Python values, exceptions and results *)

Abbreviation bytes := (list Byte.byte).

(** What a [TxParams] dict holds under its string keys. *)
Inductive value : Type :=
| VNone
| VInt (z : Z)
| VStr (s : string)
| VBytes (b : bytes).

(** An exception instance: the name of its class and its message. *)
Record exn : Type := Exn { exn_class : string; exn_msg : string }.

(** The result of a call into a library: a value, or a raised exception. *)
Inductive result (A : Type) : Type :=
| Ok (a : A)
| Raise (e : exn).
Arguments Ok {A} a.
Arguments Raise {A} e.

Definition result_map {A B} (f : A -> B) (r : result A) : result B :=
  match r with
  | Ok a => Ok (f a)
  | Raise e => Raise e
  end.

(** ** Library data: receipts, signed transactions, contracts *)

Record TxReceipt : Type := mkReceipt {
  transactionHash : bytes;
  blockNumber : Z;
  status : Z;
  contractAddress : option string
}.

Record SignedTransaction : Type := mkSigned {
  rawTransaction : bytes;
  signed_hash : bytes
}.

(** [web3.eth.contract(address=..., abi=...)]: the bound address and the name
    of the ABI artifact. *)
Record Contract : Type := mkContract {
  contract_address : string;
  contract_abi : string
}.

(** [contract.functions.<name>(<args>)], one constructor per function the SDK
    calls with arguments. *)
Inductive ContractCall : Type :=
| Call_transfer (recipient : string) (amount : Z)
| Call_transferFrom (sender recipient : string) (amount : Z)
| Call_approve (spender : string) (amount : Z)
| Call_claimTFC (amount nonce : Z) (sig : bytes).

(** The only gas price strategy the module installs (line 29). *)
Inductive GasPriceStrategy : Type := rpc_gas_price_strategy.

(** ** The wrapped [web3] object

    One field per library entry point that [sdk.py] calls.  Each answer is a
    function of the arguments of the call: within one run of
    [send_transaction] every entry point is queried at most once. *)
Record Web3 : Type := mkWeb3 {
  estimateGas : gmap string value -> result Z;
  rpc_gas_price : gmap string value -> result Z;
  getTransactionCount : string -> result Z;
  sign_transaction : gmap string value -> string -> result SignedTransaction;
  sendRawTransaction : bytes -> result bytes;
  waitForTransactionReceipt : bytes -> result TxReceipt;
  from_key : string -> result string;
  toBytes : string -> result bytes;
  buildTransaction :
    Contract -> ContractCall -> gmap string value -> result (gmap string value);
  encodeABI : Contract -> ContractCall -> bytes
}.

(** ** The store *)

(** An asyncio future: [_state] with [_result] or [_exception]. *)
Inductive Future : Type :=
| Pending
| Finished (r : result TxReceipt).

(** A task waiting in the loop's ready queue.  The SDK creates one kind of
    task, the closure [transaction_task] of lines 37-43, which captures
    [self._web3], [future] and [signed_tx]. *)
Inductive task : Type :=
| TransactionTask (w : Web3) (future : nat) (signed_tx : SignedTransaction).

Definition task_future (t : task) : nat :=
  match t with TransactionTask _ f _ => f end.

(** What happened, oldest first: the calls into [web3] and every call of
    [set_result] / [set_exception] on a future.  The trace is a ghost field:
    no code reads it. *)
Inductive event : Type :=
| EEstimateGas (tx : gmap string value)
| ESetGasPriceStrategy
| EGenerateGasPrice (tx : gmap string value)
| EGetTransactionCount (address : string)
| ESignTransaction (tx : gmap string value) (key : string)
| ESendRawTransaction (raw : bytes)
| EWaitForTransactionReceipt (tx_hash : bytes)
| EToBytes (hexstr : string)
| EBuildTransaction (c : Contract) (call : ContractCall) (base : gmap string value)
| ESetResult (future : nat) (r : TxReceipt)
| ESetException (future : nat) (e : exn).

Record State : Type := mkState {
  heap : gmap nat (gmap string value);
  gasPriceStrategy : option GasPriceStrategy;
  futures : list Future;
  ready : list task;
  trace : list event
}.

Definition set_heap (h : gmap nat (gmap string value)) (s : State) : State :=
  mkState h (gasPriceStrategy s) (futures s) (ready s) (trace s).
Definition set_strategy (g : option GasPriceStrategy) (s : State) : State :=
  mkState (heap s) g (futures s) (ready s) (trace s).
Definition set_futures (f : list Future) (s : State) : State :=
  mkState (heap s) (gasPriceStrategy s) f (ready s) (trace s).
Definition set_ready (r : list task) (s : State) : State :=
  mkState (heap s) (gasPriceStrategy s) (futures s) r (trace s).
Definition log (ev : event) (s : State) : State :=
  mkState (heap s) (gasPriceStrategy s) (futures s) (ready s) (trace s ++ [ev]).

(** ** Computations

    A coroutine or method body run up to the point where it returns, raises,
    or stays suspended on a future that nobody resolves. *)
Inductive outcome (A : Type) : Type :=
| Returned (a : A)
| Raised (e : exn)
| Suspended.
Arguments Returned {A} a.
Arguments Raised {A} e.
Arguments Suspended {A}.

Definition M (A : Type) : Type := State -> outcome A * State.

#[export] Instance M_ret : MRet M := fun A a s => (Returned a, s).
#[export] Instance M_bind : MBind M := fun A B f m s =>
  match m s with
  | (Returned a, s') => f a s'
  | (Raised e, s') => (Raised e, s')
  | (Suspended, s') => (Suspended, s')
  end.

Definition lift {A} (r : result A) : outcome A :=
  match r with
  | Ok a => Returned a
  | Raise e => Raised e
  end.

(** A call into [web3]: logged, and its answer returned or raised. *)
Definition web3_call {A} (ev : event) (r : result A) : M A :=
  fun s => (lift r, log ev s).

(** The built-in classes that derive from [BaseException] and not from
    [Exception] (asyncio's [CancelledError] among them, as of Python 3.8):
    an instance of one of these passes an [except Exception] clause. *)
Definition not_Exception_classes : list string :=
  ["BaseException"; "KeyboardInterrupt"; "SystemExit"; "GeneratorExit";
   "CancelledError"; "asyncio.CancelledError"].

(** [isinstance(e, Exception)] *)
Definition is_Exception (e : exn) : bool :=
  negb (existsb (String.eqb (exn_class e)) not_Exception_classes).

(** [type(e) is StopIteration] *)
Definition is_StopIteration (e : exn) : bool :=
  String.eqb (exn_class e) "StopIteration".

(** [try: body except Exception as e: handler(e)]: an exception that is no
    [Exception] is not caught. *)
Definition try_except {A} (body : M A) (handler : exn -> M A) : M A :=
  fun s =>
    match body s with
    | (Raised e, s') => if is_Exception e then handler e s' else (Raised e, s')
    | other => other
    end.

(** *** Dict objects *)

Definition deref (d : nat) (s : State) : gmap string value :=
  default ∅ (heap s !! d).

(** [key in d] *)
Definition dict_contains (d : nat) (key : string) : M bool :=
  fun s => (Returned (bool_decide (is_Some (deref d s !! key))), s).

(** [d[key] = v], on the object itself. *)
Definition dict_setitem (d : nat) (key : string) (v : value) : M unit :=
  fun s => (Returned tt, set_heap (<[d := <[key := v]> (deref d s)]> (heap s)) s).

(** The current contents of [d], as a callee that is handed [d] sees them. *)
Definition dict_read (d : nat) : M (gmap string value) :=
  fun s => (Returned (deref d s), s).

(** A dict literal or a dict returned by a library: a new object. *)
Definition dict_new (contents : gmap string value) : M nat :=
  fun s => let d := fresh (dom (heap s)) in
           (Returned d, set_heap (<[d := contents]> (heap s)) s).

(** *** Futures and the event loop *)

Definition InvalidStateError : exn := Exn "InvalidStateError" "invalid state".

(** [loop.create_future()] *)
Definition create_future : M nat :=
  fun s => (Returned (length (futures s)), set_futures (futures s ++ [Pending]) s).

(** [future.set_result(r)]: refused unless the future is pending. *)
Definition set_result (future : nat) (r : TxReceipt) : M unit :=
  fun s =>
    match futures s !! future with
    | Some Pending =>
        (Returned tt,
         log (ESetResult future r) (set_futures (<[future := Finished (Ok r)]> (futures s)) s))
    | _ => (Raised InvalidStateError, log (ESetResult future r) s)
    end.

Definition StopIteration_refused : exn :=
  Exn "TypeError"
      "StopIteration interacts badly with generators and cannot be raised into a Future".

(** [future.set_exception(e)]: refused unless the future is pending, and
    then refused for a [StopIteration]. *)
Definition set_exception (future : nat) (e : exn) : M unit :=
  fun s =>
    match futures s !! future with
    | Some Pending =>
        if is_StopIteration e then
          (Raised StopIteration_refused, log (ESetException future e) s)
        else
          (Returned tt,
           log (ESetException future e)
               (set_futures (<[future := Finished (Raise e)]> (futures s)) s))
    | _ => (Raised InvalidStateError, log (ESetException future e) s)
    end.

(** [loop.create_task(t)]: the task is queued, it has not started. *)
Definition create_task (t : task) : M unit :=
  fun s => (Returned tt, set_ready (ready s ++ [t]) s).

(** ** Web3Wrapper.send_transaction (lines 20-46) *)

(** Lines 37-43, the body of [transaction_task]. *)
Definition transaction_task (w : Web3) (future : nat) (signed_tx : SignedTransaction)
  : M unit :=
  try_except
    (tx_hash ← web3_call (ESendRawTransaction (rawTransaction signed_tx))
                         (sendRawTransaction w (rawTransaction signed_tx));
     receipt ← web3_call (EWaitForTransactionReceipt tx_hash)
                         (waitForTransactionReceipt w tx_hash);
     set_result future receipt)
    (fun e => set_exception future e).

Definition run_task (t : task) : M unit :=
  match t with
  | TransactionTask w future signed_tx => transaction_task w future signed_tx
  end.

(** The loop runs the queued tasks first in, first out.  An exception that
    escapes a task stays in the task object and reaches nobody. *)
Fixpoint run_tasks (ts : list task) (s : State) : State :=
  match ts with
  | [] => s
  | t :: ts' => run_tasks ts' (snd (run_task t s))
  end.

Definition run_loop (s : State) : State :=
  run_tasks (ready s) (set_ready [] s).

Definition future_outcome (s : State) (future : nat) : outcome TxReceipt :=
  match futures s !! future with
  | Some (Finished (Ok r)) => Returned r
  | Some (Finished (Raise e)) => Raised e
  | _ => Suspended
  end.

(** [await future]: a finished future answers at once; otherwise the
    coroutine yields to the loop, which runs what is queued, and resumes
    with the future's result or exception. *)
Definition await (future : nat) : M TxReceipt :=
  fun s =>
    match futures s !! future with
    | Some (Finished _) => (future_outcome s future, s)
    | _ => let s' := run_loop s in (future_outcome s' future, s')
    end.

(** [web3.eth.setGasPriceStrategy(strategy)] *)
Definition setGasPriceStrategy (strategy : GasPriceStrategy) : M unit :=
  fun s => (Returned tt, log ESetGasPriceStrategy (set_strategy (Some strategy) s)).

(** [web3.eth.generateGasPrice(tx)]: the installed strategy applied to [tx],
    [None] when there is none. *)
Definition generateGasPrice (w : Web3) (tx : gmap string value) : M value :=
  fun s =>
    match gasPriceStrategy s with
    | None => (Returned VNone, log (EGenerateGasPrice tx) s)
    | Some rpc_gas_price_strategy =>
        (lift (result_map VInt (rpc_gas_price w tx)), log (EGenerateGasPrice tx) s)
    end.

(** An [Account] (lines 49-62): the key and the address derived from it. *)
Record Account : Type := mkAccount {
  private_key : string;
  address : string
}.

(** Lines 26-27. *)
Definition complete_gas (w : Web3) (transaction : nat) : M unit :=
  has_gas ← dict_contains transaction "gas";
  if negb has_gas then
    tx ← dict_read transaction;
    gas ← web3_call (EEstimateGas tx) (estimateGas w tx);
    dict_setitem transaction "gas" (VInt gas)
  else mret tt.

(** Lines 28-30. *)
Definition complete_gasPrice (w : Web3) (transaction : nat) : M unit :=
  has_gasPrice ← dict_contains transaction "gasPrice";
  if negb has_gasPrice then
    setGasPriceStrategy rpc_gas_price_strategy;;
    tx ← dict_read transaction;
    price ← generateGasPrice w tx;
    dict_setitem transaction "gasPrice" price
  else mret tt.

(** Lines 31-32. *)
Definition complete_nonce (w : Web3) (transaction : nat) (sender : Account) : M unit :=
  has_nonce ← dict_contains transaction "nonce";
  if negb has_nonce then
    nonce ← web3_call (EGetTransactionCount (address sender))
                      (getTransactionCount w (address sender));
    dict_setitem transaction "nonce" (VInt nonce)
  else mret tt.

(** Lines 25-32, "check transaction fields". *)
Definition complete_fields (w : Web3) (transaction : nat) (sender : Account) : M unit :=
  complete_gas w transaction;;
  complete_gasPrice w transaction;;
  complete_nonce w transaction sender.

Definition send_transaction (w : Web3) (transaction : nat) (sender : Account)
  : M TxReceipt :=
  future ← create_future;
  complete_fields w transaction sender;;
  tx ← dict_read transaction;
  signed_tx ← web3_call (ESignTransaction tx (private_key sender))
                        (sign_transaction w tx (private_key sender));
  create_task (TransactionTask w future signed_tx);;
  await future.

(** ** Reading a run *)

(** The calls of [set_result] / [set_exception] that a trace records for one
    future, in order. *)
Definition resolution_of (future : nat) (ev : event) : option (result TxReceipt) :=
  match ev with
  | ESetResult f r => if decide (f = future) then Some (Ok r) else None
  | ESetException f e => if decide (f = future) then Some (Raise e) else None
  | _ => None
  end.

Definition resolutions (future : nat) (tr : list event) : list (result TxReceipt) :=
  omap (resolution_of future) tr.

(** Every queued task was created for a future that exists. *)
Definition wf (s : State) : Prop :=
  Forall (fun t => (task_future t < length (futures s))%nat) (ready s).

(** What [transaction_task] computes from the two calls it makes. *)
Definition task_result (w : Web3) (signed_tx : SignedTransaction) : result TxReceipt :=
  match sendRawTransaction w (rawTransaction signed_tx) with
  | Ok tx_hash => waitForTransactionReceipt w tx_hash
  | Raise e => Raise e
  end.

(** The calls the task makes on the future once the two calls are through:
    an exception that [except Exception] does not catch leaves the task
    before any. *)
Definition resolution_events (future : nat) (r : result TxReceipt) : list event :=
  match r with
  | Ok receipt => [ESetResult future receipt]
  | Raise e => if is_Exception e then [ESetException future e] else []
  end.

Definition task_events (w : Web3) (future : nat) (signed_tx : SignedTransaction)
  : list event :=
  let raw := rawTransaction signed_tx in
  ESendRawTransaction raw ::
  match sendRawTransaction w raw with
  | Ok tx_hash => [EWaitForTransactionReceipt tx_hash]
  | Raise _ => []
  end ++ resolution_events future (task_result w signed_tx).

(** An exception that the task can put into its future: [except Exception]
    catches it and [set_exception] accepts it. *)
Definition resolvable (e : exn) : bool :=
  is_Exception e && negb (is_StopIteration e).

(** What the task puts into a pending future, if anything. *)
Definition task_resolution (w : Web3) (signed_tx : SignedTransaction)
  : option (result TxReceipt) :=
  match task_result w signed_tx with
  | Ok r => Some (Ok r)
  | Raise e => if resolvable e then Some (Raise e) else None
  end.

(** The futures after the task ran on a pending [future]. *)
Definition settle (future : nat) (o : option (result TxReceipt))
    (fs : list Future) : list Future :=
  match o with
  | Some r => <[future := Finished r]> fs
  | None => fs
  end.

(** How the awaiting coroutine resumes: not at all on a future left pending
    (a [KeyboardInterrupt] or [SystemExit] that leaves a task stops the loop
    itself, so nothing resumes either). *)
Definition resumed (o : option (result TxReceipt)) : outcome TxReceipt :=
  match o with
  | Some r => lift r
  | None => Suspended
  end.

(** ** Contract bindings (lines 116-199)

    A [TFCToken] or [TFCManager] object: the wrapped [web3] and the contract
    bound in [__init__]. *)

(** [self._contract.functions.<call>.buildTransaction(base)]: the library
    answers with a dict, a new object.  The dict literal [base] is handed
    over and not kept, so it needs no place in the store. *)
Definition build (w : Web3) (c : Contract) (call : ContractCall)
    (base : gmap string value) : M nat :=
  tx ← web3_call (EBuildTransaction c call base) (buildTransaction w c call base);
  dict_new tx.

(** Lines 183-187.  The body ends after the [await]: the method returns
    [None].  A method that handed the receipt on would return [Some] of it. *)
Definition TFCToken_transfer (w : Web3) (c : Contract)
    (recipient : string) (amount : Z) (sender : Account) : M (option TxReceipt) :=
  transaction ← build w c (Call_transfer recipient amount)
                      {["from" := VStr (address sender)]};
  send_transaction w transaction sender;;
  mret None.

(** Lines 189-193. *)
Definition TFCToken_transfer_from (w : Web3) (c : Contract)
    (sender recipient : string) (amount : Z) (spender : Account) : M (option TxReceipt) :=
  transaction ← build w c (Call_transferFrom sender recipient amount)
                      {["from" := VStr (address spender)]};
  send_transaction w transaction spender;;
  mret None.

(** Lines 195-199. *)
Definition TFCToken_approve (w : Web3) (c : Contract)
    (spender : string) (amount : Z) (owner : Account) : M (option TxReceipt) :=
  transaction ← build w c (Call_approve spender amount)
                      {["from" := VStr (address owner)]};
  send_transaction w transaction owner;;
  mret None.

(** Lines 136-141. *)
Definition TFCManager_claim_tfc (w : Web3) (c : Contract)
    (amount nonce : Z) (signature : string) (claimer : Account) : M (option TxReceipt) :=
  sig ← web3_call (EToBytes signature) (toBytes w signature);
  transaction ← build w c (Call_claimTFC amount nonce sig)
                      {["from" := VStr (address claimer)]};
  send_transaction w transaction claimer;;
  mret None.

(** What the four methods share: build the intent for [call] with the acting
    account as [from], send it, return [None]. *)
Definition contract_method (w : Web3) (c : Contract) (call : ContractCall)
    (acting : Account) : M (option TxReceipt) :=
  transaction ← build w c call {["from" := VStr (address acting)]};
  send_transaction w transaction acting;;
  mret None.

(** The first two stages of [send_transaction]: the future is created, then
    the fields are completed.  Signing starts in the state this leaves. *)
Definition fields_run (w : Web3) (transaction : nat) (sender : Account) (s : State)
  : outcome unit * State :=
  complete_fields w transaction sender (snd (create_future s)).

(** The dict contents handed to [sign_transaction]. *)
Definition signing_input (w : Web3) (transaction : nat) (sender : Account) (s : State)
  : gmap string value :=
  deref transaction (snd (fields_run w transaction sender s)).

(** The calls field completion makes. *)
Definition is_query (ev : event) : Prop :=
  match ev with
  | EEstimateGas _ | ESetGasPriceStrategy | EGenerateGasPrice _
  | EGetTransactionCount _ => True
  | _ => False
  end.

(** [s'] is [s] after steps that touch neither a future nor the queue and
    only query the chain. *)
Definition before_task (s s' : State) : Prop :=
  futures s' = futures s /\ ready s' = ready s /\
  exists tr, trace s' = trace s ++ tr /\ Forall is_query tr.

(** [s'] is [s] after tasks that own futures below [n] ran. *)
Definition others_ran (n : nat) (s s' : State) : Prop :=
  heap s' = heap s /\ gasPriceStrategy s' = gasPriceStrategy s /\
  ready s' = ready s /\ length (futures s') = length (futures s) /\
  (forall i, (n <= i)%nat -> futures s' !! i = futures s !! i) /\
  exists tr, trace s' = trace s ++ tr /\
             forall i, (n <= i)%nat -> resolutions i tr = [].


(** Modelled from the spec: [buildTransaction] belongs to web3's contract
    layer, which is not under src/.  The spec (4.2) says what the intent it
    answers with holds: [to] is the contract's address, [data] the
    ABI-encoded call, and the [from] of the dict it was given is kept. *)
Definition builds_intents (w : Web3) : Prop :=
  forall c call base tx,
    buildTransaction w c call base = Ok tx ->
    tx !! "to" = Some (VStr (contract_address c)) /\
    tx !! "data" = Some (VBytes (encodeABI w c call)) /\
    tx !! "from" = base !! "from".

(** Modelled from the spec: [waitForTransactionReceipt] belongs to web3, which
    is not under src/.  The spec (6) has [waitForReceipt(hash) -> Receipt]:
    the receipt the chain reports for that hash. *)
Definition receipt_of_hash (w : Web3) : Prop :=
  forall tx_hash r,
    waitForTransactionReceipt w tx_hash = Ok r -> transactionHash r = tx_hash.



(** The receipt is dropped: [await send_transaction(...)] as a statement,
    followed by the implicit [return None]. *)
Definition discard_receipt (o : outcome TxReceipt) : outcome (option TxReceipt) :=
  match o with
  | Returned _ => Returned None
  | Raised e => Raised e
  | Suspended => Suspended
  end.

(** ** Account (lines 49-62) *)

Definition Account_init (w : Web3) (key : string) : result Account :=
  result_map (mkAccount key) (from_key w key).

(** ** SDK.__init__ (lines 66-75)

    A Python [str] is a sequence of code points; the model keeps those below
    256, one per [ascii]. *)

(** [str.isspace] on one code point below 256. *)
Definition isspace (c : ascii) : bool :=
  let n := nat_of_ascii c in
  ((9 <=? n) && (n <=? 13) || (28 <=? n) && (n <=? 32) || (n =? 133) || (n =? 160))%nat.

Fixpoint lstrip_chars (cs : list ascii) : list ascii :=
  match cs with
  | [] => []
  | c :: cs' => if isspace c then lstrip_chars cs' else cs
  end.

Definition rstrip_chars (cs : list ascii) : list ascii :=
  rev (lstrip_chars (rev cs)).

(** [s.strip()] *)
Definition strip (s : string) : string :=
  string_of_list_ascii (rstrip_chars (lstrip_chars (list_ascii_of_string s))).

(** [s.startswith(p)] *)
Definition startswith (s p : string) : bool := String.prefix p s.

Definition AttributeError_strip : exn :=
  Exn "AttributeError" "'NoneType' object has no attribute 'strip'".

(** [endpoint.strip()] where [endpoint] is a [str] or [None]: [None] has no
    such attribute. *)
Definition py_strip (endpoint : option string) : result string :=
  match endpoint with
  | Some e => Ok (strip e)
  | None => Raise AttributeError_strip
  end.

Definition is_not_None {A} (v : option A) : bool :=
  match v with
  | Some _ => true
  | None => false
  end.

Inductive Provider : Type :=
| HTTPProvider (endpoint_uri : string)
| WebsocketProvider (endpoint_uri : string).

(** The provider that [__init__] hands to [Web3(...)], or what it raises.
    After line 68 [endpoint] is the [str] that [strip] returned. *)
Definition SDK_init (endpoint : option string) : result Provider :=
  match py_strip endpoint with
  | Raise e => Raise e
  | Ok endpoint =>
      if is_not_None (Some endpoint) && startswith endpoint "http" then
        Ok (HTTPProvider endpoint)
      else if is_not_None (Some endpoint) && startswith endpoint "ws" then
        Ok (WebsocketProvider endpoint)
      else
        Raise (Exn "ValueError" ("unsupported Ethereum endpoint " +:+ endpoint))
  end.

Definition all_space (cs : list ascii) : Prop := Forall (fun c => isspace c = true) cs.

(** ** Unit conversion (lines 95-99) *)

(** Modelled from the spec: [web3.fromWei] and [web3.toWei] are library
    functions, not under src/.  The spec (4.3, 8, glossary) has a fixed scale
    of 10^18 wei to the ether, exact arithmetic towards wei, and truncation
    of what is left below one wei.  An ether amount is a decimal number
    [coefficient * 10 ^ exponent], as Python's [Decimal] is; a [float]
    argument enters as the decimal that prints it. *)
Record Decimal : Type := mkDecimal { coefficient : Z; exponent : Z }.

Definition unit_exponent (unit : string) : option Z :=
  if decide (unit = "ether") then Some 18
  else if decide (unit = "wei") then Some 0
  else None.

Definition unknown_unit : exn := Exn "ValueError" "Unknown unit".

Definition fromWei (number : Z) (unit : string) : result Decimal :=
  match unit_exponent unit with
  | Some k => Ok (mkDecimal number (- k))
  | None => Raise unknown_unit
  end.

(** [int(d)]: the integer part, towards zero. *)
Definition to_integral (d : Decimal) : Z :=
  if 0 <=? exponent d then coefficient d * 10 ^ exponent d
  else Z.quot (coefficient d) (10 ^ (- exponent d)).

Definition toWei (number : Decimal) (unit : string) : result Z :=
  match unit_exponent unit with
  | Some k => Ok (to_integral (mkDecimal (coefficient number) (exponent number + k)))
  | None => Raise unknown_unit
  end.

(** Line 96. *)
Definition wei_to_eth (amount_wei : Z) : result Decimal :=
  fromWei amount_wei "ether".

(** Line 99. *)
Definition eth_to_wei (amount_eth : Decimal) : result Z :=
  toWei amount_eth "ether".

Definition result_bind {A B} (r : result A) (f : A -> result B) : result B :=
  match r with
  | Ok a => f a
  | Raise e => Raise e
  end.

(** ** Hex strings *)

Definition hex_digit (c : ascii) : option N :=
  let n := N_of_ascii c in
  (if (48 <=? n) && (n <=? 57) then Some (n - 48)
   else if (97 <=? n) && (n <=? 102) then Some (n - 87)
   else if (65 <=? n) && (n <=? 70) then Some (n - 55)
   else None)%N.

Definition bad_hex (msg : string) : exn := Exn "binascii.Error" msg.

Fixpoint unhexlify (cs : list ascii) : result bytes :=
  match cs with
  | [] => Ok []
  | [_] => Raise (bad_hex "Odd-length string")
  | hi :: lo :: rest =>
      match hex_digit hi, hex_digit lo with
      | Some h, Some l =>
          match Byte.of_N (16 * h + l) with
          | Some b => result_map (cons b) (unhexlify rest)
          | None => Raise (bad_hex "Non-hexadecimal digit found")
          end
      | _, _ => Raise (bad_hex "Non-hexadecimal digit found")
      end
  end.

Definition remove_0x_prefix (s : string) : string :=
  if startswith s "0x" || startswith s "0X" then String.substring 2 (String.length s - 2) s
  else s.

(** Modelled from the spec: the hex decoder behind [web3.toBytes(hexstr=...)]
    is a library function, not under src/.  This is the strict decoder of the
    spec (4.2, 8): an optional 0x prefix, then two hex digits for each byte;
    an odd number of digits or a character that is no hex digit is refused.
    The refusal is the exception of the library that decodes; the SDK defines
    no exception class. *)
Definition decode_hex (hexstr : string) : result bytes :=
  unhexlify (list_ascii_of_string (remove_0x_prefix hexstr)).


(** ** A chain to run the code against

    A small deterministic [web3] for evaluating the definitions: fixed gas,
    price and nonce; a signer that, as the signing library does, refuses a
    [from] that is not the address of the key; submission and confirmation
    as given. *)

Definition example_address (key : string) : string := "0x" +:+ key.

Definition example_signed : SignedTransaction :=
  mkSigned [Byte.xf8; Byte.x6b] [Byte.x1f; Byte.x2e].

Definition from_mismatch : exn :=
  Exn "TypeError" "from field must match key's address".

Definition example_sign (tx : gmap string value) (key : string)
  : result SignedTransaction :=
  match tx !! "from" with
  | Some (VStr a) =>
      if decide (a = example_address key) then Ok example_signed
      else Raise from_mismatch
  | _ => Ok example_signed
  end.


Definition example_encode (c : Contract) (call : ContractCall) : bytes :=
  match call with
  | Call_transfer _ _ => [Byte.xa9]
  | Call_transferFrom _ _ _ => [Byte.x23]
  | Call_approve _ _ => [Byte.x09]
  | Call_claimTFC _ _ sig => Byte.x5c :: sig
  end.

Definition example_build (c : Contract) (call : ContractCall)
    (base : gmap string value) : result (gmap string value) :=
  Ok (<["to" := VStr (contract_address c)]>
        (<["data" := VBytes (example_encode c call)]> base)).

Definition example_web3
    (sign : gmap string value -> string -> result SignedTransaction)
    (submit : bytes -> result bytes)
    (wait : bytes -> result TxReceipt) : Web3 :=
  mkWeb3 (fun _ => Ok 21000) (fun _ => Ok 1000000000) (fun _ => Ok 7)
         sign submit wait
         (fun key => Ok (example_address key))
         decode_hex example_build example_encode.

Definition example_receipt (tx_hash : bytes) : TxReceipt :=
  mkReceipt tx_hash 12 1 None.

(** Everything succeeds; the hash of a transaction is [hash_a]. *)
Definition hash_a : bytes := [Byte.xaa; Byte.x01].
Definition hash_b : bytes := [Byte.xbb; Byte.x02].

Definition good_web3 : Web3 :=
  example_web3 example_sign (fun _ => Ok hash_a) (fun h => Ok (example_receipt h)).

Definition connection_lost : exn := Exn "ConnectionError" "connection lost".

(** Submission answers [tx_hash]; the wait for the receipt then fails. *)
Definition lost_web3 (tx_hash : bytes) : Web3 :=
  example_web3 example_sign (fun _ => Ok tx_hash) (fun _ => Raise connection_lost).


Definition alice : Account := mkAccount "a11ce" (example_address "a11ce").
Definition bob : Account := mkAccount "b0b" (example_address "b0b").

Definition tfc_token : Contract := mkContract "0xT0KEN" "TFCToken".

(** An intent from alice with all three fields set, and one with none. *)
Definition full_intent : gmap string value :=
  {[ "from" := VStr (address alice); "to" := VStr (address bob); "value" := VInt 5;
     "gas" := VInt 30000; "gasPrice" := VInt 2; "nonce" := VInt 3 ]}.

Definition bare_intent : gmap string value :=
  {[ "from" := VStr (address alice); "to" := VStr (address bob); "value" := VInt 5 ]}.

(** A store holding one dict, at reference 0; nothing queued. *)
Definition store_of (tx : gmap string value) : State :=
  mkState {[ 0%nat := tx ]} None [] [] [].

(** One completion block for key [key]: the dict is left as it is, or [key],
    absent before, is bound. *)
Definition fills (key : string) (t : nat) (o : outcome unit) (s s' : State) : Prop :=
  (forall d, d <> t -> heap s' !! d = heap s !! d) /\
  (is_Some (heap s !! t) -> is_Some (heap s' !! t)) /\
  (deref t s' = deref t s \/
   deref t s !! key = None /\ exists v, deref t s' = <[key := v]> (deref t s)) /\
  (o = Returned tt -> is_Some (deref t s' !! key)).


Definition empty_store : State := mkState ∅ None [] [] [].


(** A call of one of the four state-mutating contract methods, with the
    arguments the caller gives besides the acting account. *)
Inductive invocation : Type :=
| Transfer (recipient : string) (amount : Z)
| TransferFrom (sender recipient : string) (amount : Z)
| Approve (spender : string) (amount : Z)
| ClaimTFC (amount nonce : Z) (signature : string).

Definition invoke (w : Web3) (c : Contract) (i : invocation) (acting : Account)
  : M (option TxReceipt) :=
  match i with
  | Transfer recipient amount => TFCToken_transfer w c recipient amount acting
  | TransferFrom sender recipient amount =>
      TFCToken_transfer_from w c sender recipient amount acting
  | Approve spender amount => TFCToken_approve w c spender amount acting
  | ClaimTFC amount nonce signature =>
      TFCManager_claim_tfc w c amount nonce signature acting
  end.

(** The contract call an invocation encodes; [claim_tfc] decodes its
    signature first. *)
Definition call_of (w : Web3) (i : invocation) : result ContractCall :=
  match i with
  | Transfer recipient amount => Ok (Call_transfer recipient amount)
  | TransferFrom sender recipient amount =>
      Ok (Call_transferFrom sender recipient amount)
  | Approve spender amount => Ok (Call_approve spender amount)
  | ClaimTFC amount nonce signature =>
      result_map (Call_claimTFC amount nonce) (toBytes w signature)
  end.

(** The state in which the intent is built. *)
Definition before_build (i : invocation) (s : State) : State :=
  match i with
  | ClaimTFC _ _ signature => log (EToBytes signature) s
  | _ => s
  end.

(** Hex digits for bytes, to check the decoder against. *)
Definition hex_char (d : N) : ascii :=
  (if d <? 10 then ascii_of_N (48 + d) else ascii_of_N (87 + d))%N.

Definition hexlify (bs : bytes) : list ascii :=
  flat_map (fun b => let n := Byte.to_N b in
                     [hex_char (n / 16)%N; hex_char (n mod 16)%N]) bs.

(** A store in which another call is under way: its future exists and its
    task, which will fail while waiting, is queued. *)
Definition busy_store (tx : gmap string value) : State :=
  mkState {[ 0%nat := tx ]} None [Pending]
          [TransactionTask (lost_web3 hash_b) 0 example_signed] [].

(** ** More of the module *)

(** *** SDK.transfer (lines 87-93)

    The intent is a dict literal, a new object; the receipt is dropped. *)
Definition SDK_transfer (w : Web3) (recipient : string) (amount : Z)
    (sender : Account) : M (option TxReceipt) :=
  transaction ← dict_new {[ "from" := VStr (address sender);
                            "to" := VStr recipient;
                            "value" := VInt amount ]};
  send_transaction w transaction sender;;
  mret None.

(** The intent of [SDK.transfer] as written, and as completed with the gas,
    price and nonce the chain answered. *)
Definition transfer_intent (recipient : string) (amount : Z) (sender : Account)
  : gmap string value :=
  {[ "from" := VStr (address sender); "to" := VStr recipient; "value" := VInt amount ]}.

Definition completed (tx : gmap string value) (gas price nonce : value)
  : gmap string value :=
  <["nonce" := nonce]> (<["gasPrice" := price]> (<["gas" := gas]> tx)).

(** *** Counting calls in a trace *)

Definition is_signing (ev : event) : bool :=
  match ev with ESignTransaction _ _ => true | _ => false end.

Definition is_submission (ev : event) : bool :=
  match ev with ESendRawTransaction _ => true | _ => false end.

Definition is_wait (ev : event) : bool :=
  match ev with EWaitForTransactionReceipt _ => true | _ => false end.

Fixpoint count_events (p : event -> bool) (tr : list event) : nat :=
  match tr with
  | [] => 0%nat
  | ev :: tr' => ((if p ev then 1 else 0) + count_events p tr')%nat
  end.

(** *** Artifacts and deployment (lines 101-107, 117-127, 145-155)

    What these lines use besides the entry points of [Web3]:
    [open_text name] is [open(<module directory>/contracts/<name>)] read as
    text, the content of the file as Python's text mode presents it (every
    line end a newline character) or the error of [open]; [json_load] is
    [json.load] on that content, the parsed document kept as a string;
    [buildConstructorTransaction abi bytecode base] is
    [web3.eth.contract(abi=abi, bytecode=bytecode).constructor()
     .buildTransaction(base)]. *)
Record Deployment : Type := mkDeployment {
  open_text : string -> result string;
  json_load : string -> result string;
  buildConstructorTransaction :
    string -> string -> gmap string value -> result (gmap string value)
}.

Definition newline : ascii := ascii_of_nat 10.

(** [file.readline()] on a file just opened: the characters up to the first
    newline, the newline included. *)
Fixpoint readline_chars (cs : list ascii) : list ascii :=
  match cs with
  | [] => []
  | c :: cs' => if Ascii.eqb c newline then [c] else c :: readline_chars cs'
  end.

Definition readline (content : string) : string :=
  string_of_list_ascii (readline_chars (list_ascii_of_string content)).

(** Lines 117-121. *)
Definition TFCManager_bytecode (lib : Deployment) : result string :=
  result_map readline (open_text lib "TFCManager.bin").

(** Lines 123-127. *)
Definition TFCManager_abi (lib : Deployment) : result string :=
  result_bind (open_text lib "TFCManager.abi.json") (json_load lib).

(** Lines 145-149. *)
Definition TFCToken_bytecode (lib : Deployment) : result string :=
  result_map readline (open_text lib "TFCToken.bin").

(** Lines 151-155. *)
Definition TFCToken_abi (lib : Deployment) : result string :=
  result_bind (open_text lib "TFCToken.abi.json") (json_load lib).

(** A call into a library that the trace has no event for. *)
Definition library_call {A} (r : result A) : M A :=
  fun s => (lift r, s).

(** Lines 101-107.  The keyword arguments are evaluated left to right: the
    ABI is loaded before the bytecode.  [receipt["contractAddress"]] is
    [None] in the receipt of a transaction that created no contract. *)
Definition deploy_tfc_manager (w : Web3) (lib : Deployment) (deployer : Account)
  : M (option string) :=
  abi ← library_call (TFCManager_abi lib);
  bytecode ← library_call (TFCManager_bytecode lib);
  tx ← library_call (buildConstructorTransaction lib abi bytecode
                       {["from" := VStr (address deployer)]});
  transaction ← dict_new tx;
  receipt ← send_transaction w transaction deployer;
  mret (contractAddress receipt).

(** An artifact directory and a builder to run the code against. *)
Definition example_files (name : string) : result string :=
  if decide (name = "TFCManager.bin") then
    Ok (String "6" (String "0" (String "8" (String "0" (String newline "junk")))))
  else if decide (name = "TFCManager.abi.json") then Ok "[]"
  else Raise (Exn "FileNotFoundError" name).

Definition example_deployment : Deployment :=
  mkDeployment example_files (fun text => Ok text)
    (fun abi bytecode base => Ok (<["data" := VStr bytecode]> base)).


(** A chain whose receipts carry the address of a created contract. *)
Definition deploying_web3 : Web3 :=
  example_web3 example_sign (fun _ => Ok hash_a)
    (fun h => Ok (mkReceipt h 12 1 (Some "0xC0FFEE"))).




(** A store whose only future is finished, and one with two dicts. *)
Definition finished_store : State :=
  mkState ∅ None [Finished (Raise connection_lost)] [] [].

Definition two_dicts : State :=
  mkState {[ 0%nat := bare_intent; 1%nat := full_intent ]} None [] [] [].

(** Chains on which the wait for the receipt ends in an exception that the
    task cannot forward: Ctrl-C during the blocking wait, and a
    [StopIteration]. *)
Definition interrupted : exn := Exn "KeyboardInterrupt" "".

Definition interrupted_web3 : Web3 :=
  example_web3 example_sign (fun _ => Ok hash_a) (fun _ => Raise interrupted).


(** * Proofs *)

(** ** The monad, unfolded *)

Ltac unfold_M :=
  unfold mbind, M_bind, mret, M_ret, web3_call, try_except, dict_contains,
    dict_setitem, dict_read, dict_new, create_task, setGasPriceStrategy,
    generateGasPrice, lift, result_map in *.

Lemma resolutions_app i tr1 tr2 :
  resolutions i (tr1 ++ tr2) = resolutions i tr1 ++ resolutions i tr2.
Proof. unfold resolutions. apply omap_app. Qed.

Lemma before_task_refl s : before_task s s.
Proof.
  repeat split. exists []. split; [by rewrite app_nil_r | constructor].
Qed.



Lemma before_task_trans s1 s2 s3 :
  before_task s1 s2 -> before_task s2 s3 -> before_task s1 s3.
Proof.
  intros (F1 & R1 & tr1 & T1 & N1) (F2 & R2 & tr2 & T2 & N2).
  split; [congruence|]. split; [congruence|].
  exists (tr1 ++ tr2). split.
  - rewrite T2, T1. by rewrite app_assoc.
  - by apply Forall_app.
Qed.

(** ** Field completion *)

Lemma complete_gas_before_task w t s :
  fst (complete_gas w t s) <> Suspended /\
  before_task s (snd (complete_gas w t s)).
Proof.
  unfold complete_gas. unfold_M.
  destruct (bool_decide _); simpl.
  - split; [done | apply before_task_refl].
  - destruct (estimateGas w _); simpl; (split; [done|]);
      (repeat split; exists [EEstimateGas (deref t s)]; split;
       [done | by repeat constructor]).
Qed.

Lemma complete_gasPrice_before_task w t s :
  fst (complete_gasPrice w t s) <> Suspended /\
  before_task s (snd (complete_gasPrice w t s)).
Proof.
  unfold complete_gasPrice. unfold_M.
  destruct (bool_decide _); simpl.
  - split; [done | apply before_task_refl].
  - destruct (rpc_gas_price w _); simpl; (split; [done|]);
      (repeat split; eexists [ESetGasPriceStrategy; EGenerateGasPrice _];
       split; [simpl; by rewrite <- app_assoc | by repeat constructor]).
Qed.

Lemma complete_nonce_before_task w t sender s :
  fst (complete_nonce w t sender s) <> Suspended /\
  before_task s (snd (complete_nonce w t sender s)).
Proof.
  unfold complete_nonce. unfold_M.
  destruct (bool_decide _); simpl.
  - split; [done | apply before_task_refl].
  - destruct (getTransactionCount w _); simpl; (split; [done|]);
      (repeat split; eexists [EGetTransactionCount _]; split;
       [done | by repeat constructor]).
Qed.

Lemma complete_fields_before_task w t sender s :
  fst (complete_fields w t sender s) <> Suspended /\
  before_task s (snd (complete_fields w t sender s)).
Proof.
  unfold complete_fields. unfold mbind, M_bind.
  pose proof (complete_gas_before_task w t s) as [N1 B1].
  destruct (complete_gas w t s) as [[[]|e|] s1]; simpl in *; try done.
  pose proof (complete_gasPrice_before_task w t s1) as [N2 B2].
  destruct (complete_gasPrice w t s1) as [[[]|e|] s2]; simpl in *; try done.
  - pose proof (complete_nonce_before_task w t sender s2) as [N3 B3].
    split; [done|]. eauto using before_task_trans.
  - split; [done|]. eauto using before_task_trans.
Qed.

(** ** The background task *)

Lemma set_exception_pending fut e s :
  futures s !! fut = Some Pending ->
  snd (set_exception fut e s) =
    mkState (heap s) (gasPriceStrategy s)
            (if is_StopIteration e then futures s
             else <[fut := Finished (Raise e)]> (futures s))
            (ready s) (trace s ++ [ESetException fut e]).
Proof.
  intros P. unfold set_exception. rewrite P. by destruct (is_StopIteration e).
Qed.

Lemma transaction_task_pending w fut signed s :
  futures s !! fut = Some Pending ->
  snd (transaction_task w fut signed s) =
    mkState (heap s) (gasPriceStrategy s)
            (settle fut (task_resolution w signed) (futures s))
            (ready s) (trace s ++ task_events w fut signed).
Proof.
  intros P.
  unfold transaction_task, task_resolution, task_events, task_result, resolvable.
  unfold try_except, mbind, M_bind, web3_call.
  destruct (sendRawTransaction w _) as [h|e]; simpl.
  - destruct (waitForTransactionReceipt w h) as [r|e]; simpl.
    + unfold set_result. simpl. rewrite P. simpl.
      unfold log, set_futures; simpl. by rewrite <- ?app_assoc.
    + destruct (is_Exception e); simpl.
      * rewrite set_exception_pending by done. simpl.
        destruct (is_StopIteration e); simpl; by rewrite <- ?app_assoc.
      * unfold log; simpl. by rewrite <- ?app_assoc.
  - destruct (is_Exception e); simpl.
    + rewrite set_exception_pending by done. simpl.
      destruct (is_StopIteration e); simpl; by rewrite <- ?app_assoc.
    + done.
Qed.

Lemma others_ran_resolve fut x ev s :
  (forall i, (S fut <= i)%nat -> resolution_of i ev = None) ->
  others_ran (S fut) s (log ev (set_futures (<[fut := x]> (futures s)) s)).
Proof.
  intros H. unfold others_ran; simpl.
  split; [done|]. split; [done|]. split; [done|].
  split; [by rewrite length_insert|].
  split; [intros i Hi; apply list_lookup_insert_ne; lia|].
  exists [ev]. split; [done|]. intros i Hi. simpl. by rewrite H.
Qed.

Lemma others_ran_log n ev s :
  (forall i, (n <= i)%nat -> resolution_of i ev = None) ->
  others_ran n s (log ev s).
Proof.
  intros H. repeat split. exists [ev]. split; [done|].
  intros i Hi. simpl. by rewrite H.
Qed.

Lemma resolution_of_below_result fut r i :
  (S fut <= i)%nat -> resolution_of i (ESetResult fut r) = None.
Proof. intros Hi. simpl. case_decide; [lia | done]. Qed.

Lemma resolution_of_below_exception fut e i :
  (S fut <= i)%nat -> resolution_of i (ESetException fut e) = None.
Proof. intros Hi. simpl. case_decide; [lia | done]. Qed.

Lemma set_result_frame fut r s :
  others_ran (S fut) s (snd (set_result fut r s)).
Proof.
  unfold set_result.
  destruct (futures s !! fut) as [[|?]|] eqn:E; simpl.
  - apply others_ran_resolve, resolution_of_below_result.
  - apply others_ran_log, resolution_of_below_result.
  - apply others_ran_log, resolution_of_below_result.
Qed.

Lemma set_exception_frame fut e s :
  others_ran (S fut) s (snd (set_exception fut e s)).
Proof.
  unfold set_exception.
  destruct (futures s !! fut) as [[|?]|] eqn:E; simpl.
  - destruct (is_StopIteration e); simpl.
    + apply others_ran_log, resolution_of_below_exception.
    + apply others_ran_resolve, resolution_of_below_exception.
  - apply others_ran_log, resolution_of_below_exception.
  - apply others_ran_log, resolution_of_below_exception.
Qed.

Lemma others_ran_refl n s : others_ran n s s.
Proof.
  repeat split. exists []. split; [by rewrite app_nil_r | done].
Qed.

Lemma others_ran_trans n s1 s2 s3 :
  others_ran n s1 s2 -> others_ran n s2 s3 -> others_ran n s1 s3.
Proof.
  intros (H1 & G1 & R1 & L1 & F1 & tr1 & T1 & N1)
         (H2 & G2 & R2 & L2 & F2 & tr2 & T2 & N2).
  repeat split; try congruence.
  - intros i Hi. rewrite F2, F1; done.
  - exists (tr1 ++ tr2). split.
    + rewrite T2, T1. by rewrite app_assoc.
    + intros i Hi. rewrite resolutions_app, N1, N2; done.
Qed.

Lemma others_ran_mono n m s s' :
  (n <= m)%nat -> others_ran n s s' -> others_ran m s s'.
Proof.
  intros Hnm (H1 & G1 & R1 & L1 & F1 & tr1 & T1 & N1).
  repeat split; try done.
  - intros i Hi. apply F1. lia.
  - exists tr1. split; [done|]. intros i Hi. apply N1. lia.
Qed.

Lemma caught_frame fut e s0 s :
  others_ran (S fut) s0 s ->
  others_ran (S fut) s0
    (snd (if is_Exception e then set_exception fut e s
          else (@Raised unit e, s))).
Proof.
  intros H. destruct (is_Exception e); [|done].
  eapply others_ran_trans; [exact H | apply set_exception_frame].
Qed.

(** A task leaves every future but its own alone. *)
Lemma run_task_frame t s :
  others_ran (S (task_future t)) s (snd (run_task t s)).
Proof.
  destruct t as [w fut signed]. simpl.
  unfold transaction_task. unfold try_except, mbind, M_bind, web3_call.
  destruct (sendRawTransaction w _) as [h|e]; simpl.
  - destruct (waitForTransactionReceipt w h) as [r|e]; simpl.
    + pose proof (set_result_frame fut r
        (log (EWaitForTransactionReceipt h)
           (log (ESendRawTransaction (rawTransaction signed)) s))) as F.
      assert (others_ran (S fut) s
                (snd (set_result fut r
                   (log (EWaitForTransactionReceipt h)
                      (log (ESendRawTransaction (rawTransaction signed)) s)))))
        as F'.
      { eapply others_ran_trans; [|exact F].
        eapply others_ran_trans; by apply others_ran_log. }
      destruct (set_result fut r _) as [[[]|e|] s']; simpl in *; [done| |done].
      by apply caught_frame.
    + apply caught_frame. eapply others_ran_trans; by apply others_ran_log.
  - apply caught_frame. by apply others_ran_log.
Qed.

Lemma run_tasks_frame n ts s :
  Forall (fun t => (task_future t < n)%nat) ts ->
  others_ran n s (run_tasks ts s).
Proof.
  intros H. revert s. induction H as [|t ts Ht _ IH]; intros s; simpl.
  - apply others_ran_refl.
  - eapply others_ran_trans; [|apply IH].
    eapply others_ran_mono; [|apply run_task_frame]. lia.
Qed.

Lemma run_tasks_app ts1 ts2 s :
  run_tasks (ts1 ++ ts2) s = run_tasks ts2 (run_tasks ts1 s).
Proof.
  revert s. induction ts1 as [|t ts1 IH]; intros s; simpl; [done|]. apply IH.
Qed.

(** ** The stages of [send_transaction] *)

Lemma fields_run_before_task w t sender s :
  fst (fields_run w t sender s) <> Suspended /\
  futures (snd (fields_run w t sender s)) = futures s ++ [Pending] /\
  ready (snd (fields_run w t sender s)) = ready s /\
  exists tr, trace (snd (fields_run w t sender s)) = trace s ++ tr /\
             Forall is_query tr.
Proof.
  unfold fields_run.
  destruct (complete_fields_before_task w t sender (snd (create_future s)))
    as (N & F & R & tr & T & Z).
  split; [done|]. rewrite F, R, T. simpl. eauto.
Qed.

(** Field completion fails: the coroutine raises that exception. *)
Lemma send_transaction_fields_fail w t sender s e :
  fst (fields_run w t sender s) = Raised e ->
  send_transaction w t sender s = (Raised e, snd (fields_run w t sender s)).
Proof.
  unfold send_transaction, fields_run. unfold mbind at 1 2, M_bind at 1 2.
  simpl. destruct (complete_fields _ _ _ _) as [o s1]. simpl.
  by intros ->.
Qed.

(** Signing fails: the coroutine raises that exception, no task exists. *)
Lemma send_transaction_sign_fail w t sender s e :
  fst (fields_run w t sender s) = Returned tt ->
  sign_transaction w (signing_input w t sender s) (private_key sender) = Raise e ->
  send_transaction w t sender s =
    (Raised e,
     log (ESignTransaction (signing_input w t sender s) (private_key sender))
         (snd (fields_run w t sender s))).
Proof.
  unfold send_transaction, signing_input, fields_run. unfold_M.
  simpl. destruct (complete_fields _ _ _ _) as [o s1]. simpl.
  intros -> ->. done.
Qed.

(** The transaction is signed: the task is queued, the loop runs what was
    queued before it and then the task, and the coroutine resumes with what
    the task put into the future, if it put anything. *)
Lemma send_transaction_signed_run w t sender s signed :
  wf s ->
  fst (fields_run w t sender s) = Returned tt ->
  sign_transaction w (signing_input w t sender s) (private_key sender) = Ok signed ->
  let fut := length (futures s) in
  let s1 := log (ESignTransaction (signing_input w t sender s) (private_key sender))
                (snd (fields_run w t sender s)) in
  let s2 := run_tasks (ready s) (set_ready [] s1) in
  send_transaction w t sender s =
    (resumed (task_resolution w signed),
     mkState (heap s2) (gasPriceStrategy s2)
             (settle fut (task_resolution w signed) (futures s2))
             (ready s2) (trace s2 ++ task_events w fut signed)).
Proof.
  intros WF HF HS fut s1 s2.
  destruct (fields_run_before_task w t sender s) as (_ & F & R & _).
  assert (others_ran fut (set_ready [] s1) s2) as OR
    by (by apply run_tasks_frame).
  destruct OR as (_ & _ & _ & L2 & F2 & _).
  assert (futures s2 !! fut = Some Pending) as P.
  { rewrite F2 by done. subst s1. simpl. rewrite F.
    unfold fut. by rewrite lookup_app_r, Nat.sub_diag by done. }
  subst s2 s1. revert HF HS P L2 F R.
  unfold send_transaction, signing_input, fields_run.
  unfold mbind, M_bind, mret, M_ret, web3_call, dict_read, create_task, lift.
  simpl.
  destruct (complete_fields _ _ _ _) as [o s1] eqn:E. simpl in *.
  intros -> -> P L2 F R. simpl.
  unfold await. simpl. rewrite F.
  rewrite lookup_app_r, Nat.sub_diag by done. simpl.
  unfold run_loop. simpl. rewrite R, run_tasks_app. simpl.
  unfold set_ready, log in *. simpl in *.
  rewrite (transaction_task_pending _ _ _ _ P). simpl.
  unfold future_outcome. simpl.
  destruct (task_resolution w signed) as [r|]; simpl.
  - rewrite list_lookup_insert_eq.
    2:{ rewrite L2, F, length_app. simpl. unfold fut. lia. }
    by destruct r.
  - unfold fut in P. by rewrite P.
Qed.

Lemma send_transaction_signed w t sender s signed :
  wf s ->
  fst (fields_run w t sender s) = Returned tt ->
  sign_transaction w (signing_input w t sender s) (private_key sender) = Ok signed ->
  let fut := length (futures s) in
  let s1 := log (ESignTransaction (signing_input w t sender s) (private_key sender))
                (snd (fields_run w t sender s)) in
  exists s2,
    others_ran fut (set_ready [] s1) s2 /\
    send_transaction w t sender s =
      (resumed (task_resolution w signed),
       mkState (heap s2) (gasPriceStrategy s2)
               (settle fut (task_resolution w signed) (futures s2))
               (ready s2) (trace s2 ++ task_events w fut signed)).
Proof.
  intros WF HF HS fut s1.
  exists (run_tasks (ready s) (set_ready [] s1)).
  split; [by apply run_tasks_frame|].
  by apply send_transaction_signed_run.
Qed.

(** ** What field completion does to the caller's dict *)

Lemma deref_Some t s tx : heap s !! t = Some tx -> deref t s = tx.
Proof. unfold deref. by intros ->. Qed.

Lemma deref_setitem t k v s :
  deref t (snd (dict_setitem t k v s)) = <[k := v]> (deref t s).
Proof. unfold dict_setitem, deref. simpl. by rewrite lookup_insert_eq. Qed.

Lemma fills_same key t o s s' :
  heap s' = heap s ->
  (o = Returned tt -> is_Some (deref t s !! key)) -> fills key t o s s'.
Proof.
  intros Hh H.
  assert (deref t s' = deref t s) as Hd by (unfold deref; by rewrite Hh).
  unfold fills. rewrite Hd, Hh. repeat split; auto.
Qed.

Lemma fills_set key t v s s0 h tx :
  h = heap s -> tx = deref t s ->
  deref t s !! key = None ->
  fills key t (Returned tt) s (set_heap (<[t := <[key := v]> tx]> h) s0).
Proof.
  intros -> -> Hk.
  assert (deref t (set_heap (<[t := <[key := v]> (deref t s)]> (heap s)) s0)
          = <[key := v]> (deref t s)) as Hd.
  { unfold deref at 1. simpl. by rewrite lookup_insert_eq. }
  unfold fills. rewrite Hd. simpl.
  split; [intros d Hd'; by rewrite lookup_insert_ne|].
  split; [intros _; rewrite lookup_insert_eq; eauto|].
  split; [right; eauto|].
  intros _. rewrite lookup_insert_eq. eauto.
Qed.

Lemma not_bool_decide_is_Some (o : option value) :
  bool_decide (is_Some o) = false -> o = None.
Proof.
  intros H. apply bool_decide_eq_false in H.
  destruct o; [exfalso; eauto | done].
Qed.

Lemma complete_gas_fills w t s :
  fills "gas" t (fst (complete_gas w t s)) s (snd (complete_gas w t s)).
Proof.
  unfold complete_gas. unfold mbind, M_bind, dict_contains.
  destruct (bool_decide _) eqn:B; simpl.
  - apply fills_same; [done|]. intros _. by apply bool_decide_eq_true in B.
  - apply not_bool_decide_is_Some in B.
    unfold dict_read, web3_call.
    destruct (estimateGas w _) as [g|e]; simpl.
    + by apply fills_set.
    + by apply fills_same.
Qed.

Lemma complete_gasPrice_fills w t s :
  fills "gasPrice" t (fst (complete_gasPrice w t s)) s (snd (complete_gasPrice w t s)).
Proof.
  unfold complete_gasPrice. unfold mbind, M_bind, dict_contains.
  destruct (bool_decide _) eqn:B; simpl.
  - apply fills_same; [done|]. intros _. by apply bool_decide_eq_true in B.
  - apply not_bool_decide_is_Some in B.
    unfold dict_read, generateGasPrice. simpl.
    destruct (rpc_gas_price w _) as [g|e]; simpl.
    + by apply fills_set.
    + by apply fills_same.
Qed.

Lemma complete_nonce_fills w t sender s :
  fills "nonce" t (fst (complete_nonce w t sender s)) s
        (snd (complete_nonce w t sender s)).
Proof.
  unfold complete_nonce. unfold mbind, M_bind, dict_contains.
  destruct (bool_decide _) eqn:B; simpl.
  - apply fills_same; [done|]. intros _. by apply bool_decide_eq_true in B.
  - apply not_bool_decide_is_Some in B.
    unfold web3_call.
    destruct (getTransactionCount w _) as [g|e]; simpl.
    + by apply fills_set.
    + by apply fills_same.
Qed.

(** A block never rebinds a key that is bound. *)
Lemma fills_keeps key t o s s' k (v : value) :
  fills key t o s s' -> deref t s !! k = Some v -> deref t s' !! k = Some v.
Proof.
  intros (_ & _ & [-> | [Hn [x ->]]] & _) Hk; [done|].
  destruct (decide (key = k)) as [->|Hne]; [congruence|].
  by rewrite lookup_insert_ne.
Qed.

Lemma fills_bound key t o s s' k :
  fills key t o s s' ->
  is_Some (deref t s' !! k) -> is_Some (deref t s !! k) \/ k = key.
Proof.
  intros (_ & _ & [-> | [Hn [x ->]]] & _) Hk; [by left|].
  destruct (decide (key = k)) as [->|Hne]; [by right|].
  left. by rewrite lookup_insert_ne in Hk.
Qed.

(** Field completion as a whole, whatever its outcome. *)
Lemma complete_fields_fills w t sender s :
  let run := complete_fields w t sender s in
  (forall k v, deref t s !! k = Some v -> deref t (snd run) !! k = Some v) /\
  (forall k, is_Some (deref t (snd run) !! k) ->
             is_Some (deref t s !! k) \/ k = "gas" \/ k = "gasPrice" \/ k = "nonce") /\
  (fst run = Returned tt ->
   is_Some (deref t (snd run) !! "gas") /\
   is_Some (deref t (snd run) !! "gasPrice") /\
   is_Some (deref t (snd run) !! "nonce")) /\
  (forall d, d <> t -> heap (snd run) !! d = heap s !! d) /\
  (is_Some (heap s !! t) -> is_Some (heap (snd run) !! t)).
Proof.
  unfold complete_fields. unfold mbind, M_bind.
  pose proof (complete_gas_fills w t s) as F1.
  destruct (complete_gas w t s) as [o1 s1]. simpl in F1.
  assert (forall k, is_Some (deref t s1 !! k) -> is_Some (deref t s !! k) \/ k = "gas")
    as D1 by (intros k; by apply (fills_bound _ _ _ _ _ _ F1)).
  assert (forall k v, deref t s !! k = Some v -> deref t s1 !! k = Some v) as K1
    by (intros k v; by apply (fills_keeps _ _ _ _ _ _ _ F1)).
  destruct F1 as (O1 & A1 & _ & G1).
  destruct o1 as [[]|e|]; simpl.
  2,3: (split; [done|]; split; [intros k Hk; destruct (D1 k Hk); auto|];
        split; [done|]; split; done).
  pose proof (complete_gasPrice_fills w t s1) as F2.
  destruct (complete_gasPrice w t s1) as [o2 s2]. simpl in F2.
  assert (forall k, is_Some (deref t s2 !! k) -> is_Some (deref t s1 !! k) \/ k = "gasPrice")
    as D2 by (intros k; by apply (fills_bound _ _ _ _ _ _ F2)).
  assert (forall k v, deref t s1 !! k = Some v -> deref t s2 !! k = Some v) as K2
    by (intros k v; by apply (fills_keeps _ _ _ _ _ _ _ F2)).
  destruct F2 as (O2 & A2 & _ & G2).
  assert (forall k, is_Some (deref t s2 !! k) ->
            is_Some (deref t s !! k) \/ k = "gas" \/ k = "gasPrice" \/ k = "nonce") as D12.
  { intros k Hk. destruct (D2 k Hk) as [H|H]; [|by auto].
    destruct (D1 k H); auto. }
  destruct o2 as [[]|e|]; simpl.
  2,3: (split; [by auto|]; split; [done|]; split; [done|];
        split; [intros d Hd; rewrite O2, O1; done | by auto]).
  pose proof (complete_nonce_fills w t sender s2) as F3.
  destruct (complete_nonce w t sender s2) as [o3 s3]. simpl in F3.
  assert (forall k, is_Some (deref t s3 !! k) -> is_Some (deref t s2 !! k) \/ k = "nonce")
    as D3 by (intros k; by apply (fills_bound _ _ _ _ _ _ F3)).
  assert (forall k v, deref t s2 !! k = Some v -> deref t s3 !! k = Some v) as K3
    by (intros k v; by apply (fills_keeps _ _ _ _ _ _ _ F3)).
  destruct F3 as (O3 & A3 & _ & G3).
  split; [by auto|].
  split; [intros k Hk; destruct (D3 k Hk) as [H|H]; auto|].
  split.
  - simpl. intros ->. destruct (G1 eq_refl) as [v1 V1]. destruct (G2 eq_refl) as [v2 V2].
    split; [eauto|]. split; [eauto|]. by apply G3.
  - split; [intros d Hd; rewrite O3, O2, O1; done | by auto].
Qed.

Lemma complete_gas_present w t s g :
  deref t s !! "gas" = Some g -> complete_gas w t s = (Returned tt, s).
Proof.
  intros H. unfold complete_gas. unfold mbind, M_bind, dict_contains.
  rewrite H, bool_decide_eq_true_2 by eauto. done.
Qed.

Lemma complete_gasPrice_present w t s p :
  deref t s !! "gasPrice" = Some p -> complete_gasPrice w t s = (Returned tt, s).
Proof.
  intros H. unfold complete_gasPrice. unfold mbind, M_bind, dict_contains.
  rewrite H, bool_decide_eq_true_2 by eauto. done.
Qed.

Lemma complete_nonce_present w t sender s n :
  deref t s !! "nonce" = Some n -> complete_nonce w t sender s = (Returned tt, s).
Proof.
  intros H. unfold complete_nonce. unfold mbind, M_bind, dict_contains.
  rewrite H, bool_decide_eq_true_2 by eauto. done.
Qed.

(** When the three fields are bound, completion does nothing at all. *)
Lemma complete_fields_present w t sender s g p n :
  deref t s !! "gas" = Some g ->
  deref t s !! "gasPrice" = Some p ->
  deref t s !! "nonce" = Some n ->
  complete_fields w t sender s = (Returned tt, s).
Proof.
  intros Hg Hp Hn. unfold complete_fields. unfold mbind, M_bind.
  rewrite (complete_gas_present _ _ _ _ Hg).
  rewrite (complete_gasPrice_present _ _ _ _ Hp).
  by rewrite (complete_nonce_present _ _ _ _ _ Hn).
Qed.

(** The later stages leave the dict objects alone. *)
Lemma send_transaction_heap w t sender s :
  wf s ->
  heap (snd (send_transaction w t sender s)) = heap (snd (fields_run w t sender s)) /\
  gasPriceStrategy (snd (send_transaction w t sender s)) =
    gasPriceStrategy (snd (fields_run w t sender s)).
Proof.
  intros WF.
  destruct (fields_run_before_task w t sender s) as (NS & _).
  destruct (fst (fields_run w t sender s)) as [[]|e|] eqn:E; [| |done].
  - destruct (sign_transaction w (signing_input w t sender s) (private_key sender))
      as [signed|e] eqn:S.
    + destruct (send_transaction_signed w t sender s signed WF E S)
        as (s2 & (H2 & G2 & _) & ->).
      simpl. by rewrite H2, G2.
    + by rewrite (send_transaction_sign_fail w t sender s e E S).
  - by rewrite (send_transaction_fields_fail w t sender s e E).
Qed.


Lemma task_result_Ok w signed r :
  task_result w signed = Ok r ->
  exists tx_hash,
    sendRawTransaction w (rawTransaction signed) = Ok tx_hash /\
    waitForTransactionReceipt w tx_hash = Ok r.
Proof.
  unfold task_result.
  destruct (sendRawTransaction w _) as [h|e]; [|done]. eauto.
Qed.

Lemma resumed_Returned w signed r :
  resumed (task_resolution w signed) = Returned r -> task_result w signed = Ok r.
Proof.
  unfold task_resolution.
  destruct (task_result w signed) as [r'|e]; simpl.
  - by intros [= ->].
  - by destruct (resolvable e).
Qed.

Lemma send_transaction_returned w t sender s r :
  wf s ->
  fst (send_transaction w t sender s) = Returned r ->
  exists signed_tx tx_hash,
    sign_transaction w (signing_input w t sender s) (private_key sender)
      = Ok signed_tx /\
    sendRawTransaction w (rawTransaction signed_tx) = Ok tx_hash /\
    waitForTransactionReceipt w tx_hash = Ok r.
Proof.
  intros WF Hr.
  destruct (fields_run_before_task w t sender s) as (NS & _).
  destruct (fst (fields_run w t sender s)) as [[]|e|] eqn:E; [| |done].
  - destruct (sign_transaction w (signing_input w t sender s) (private_key sender))
      as [signed|e] eqn:S.
    + rewrite (send_transaction_signed_run w t sender s signed WF E S) in Hr.
      simpl in Hr. apply resumed_Returned, task_result_Ok in Hr.
      destruct Hr as (h & Hs & Hw). by exists signed, h.
    + by rewrite (send_transaction_sign_fail w t sender s e E S) in Hr.
  - by rewrite (send_transaction_fields_fail w t sender s e E) in Hr.
Qed.

(** ** The claims about [send_transaction] *)


(** C2. With [gas], [gasPrice] and [nonce] present in the intent, field
    completion leaves the three values as they are: it returns in the state
    it started in, so the dict is untouched and the chain is not queried;
    and the stages after it leave the dict as it is too. *)
Theorem completion_keeps_present_fields w transaction sender s tx g p n :
  heap s !! transaction = Some tx ->
  tx !! "gas" = Some g -> tx !! "gasPrice" = Some p -> tx !! "nonce" = Some n ->
  complete_fields w transaction sender s = (Returned tt, s) /\
  fields_run w transaction sender s = (Returned tt, snd (create_future s)) /\
  (wf s ->
   forall k, deref transaction (snd (send_transaction w transaction sender s)) !! k
             = tx !! k).
Proof.
  intros Ht Hg Hp Hn.
  assert (deref transaction s = tx) as D by by apply deref_Some.
  split; [apply (complete_fields_present _ _ _ _ g p n); by rewrite D|].
  assert (fields_run w transaction sender s = (Returned tt, snd (create_future s)))
    as FR.
  { unfold fields_run. apply (complete_fields_present _ _ _ _ g p n);
      unfold deref; simpl; by rewrite Ht. }
  split; [done|].
  intros WF k. unfold deref.
  destruct (send_transaction_heap w transaction sender s WF) as [-> _].
  rewrite FR. simpl. by rewrite Ht.
Qed.

(** X17. No run of field completion, whatever its outcome, rebinds a key that
    the intent binds. *)
Lemma completion_never_overwrites w transaction sender s k v :
  deref transaction s !! k = Some v ->
  deref transaction (snd (complete_fields w transaction sender s)) !! k = Some v.
Proof. apply complete_fields_fills. Qed.

(** C3. When [send_transaction] returns a receipt, it is the receipt that
    [waitForTransactionReceipt] gave for the very hash that
    [sendRawTransaction] answered for the signed transaction; on a chain
    that reports for a hash the receipt of that hash, its transaction hash
    is the hash returned by submission. *)
Theorem receipt_hash_matches_submission w transaction sender s r :
  wf s ->
  receipt_of_hash w ->
  fst (send_transaction w transaction sender s) = Returned r ->
  exists signed_tx tx_hash,
    sign_transaction w (signing_input w transaction sender s) (private_key sender)
      = Ok signed_tx /\
    sendRawTransaction w (rawTransaction signed_tx) = Ok tx_hash /\
    waitForTransactionReceipt w tx_hash = Ok r /\
    transactionHash r = tx_hash.
Proof.
  intros WF RH Hr.
  destruct (send_transaction_returned w transaction sender s r WF Hr)
    as (signed & h & S & Sub & W).
  exists signed, h. eauto.
Qed.




(** ** The definitions, run *)

Lemma wf_store_of tx : wf (store_of tx).
Proof. constructor. Qed.

Example good_run_returns_receipt :
  fst (send_transaction good_web3 0 alice (store_of bare_intent))
  = Returned (example_receipt hash_a).
Proof. vm_compute. reflexivity. Qed.

Example good_run_completes_in_place :
  heap (snd (send_transaction good_web3 0 alice (store_of bare_intent))) !! 0%nat
  = Some (<["nonce" := VInt 7]>
            (<["gasPrice" := VInt 1000000000]> (<["gas" := VInt 21000]> bare_intent))).
Proof. vm_compute. reflexivity. Qed.

Example good_run_trace :
  trace (snd (send_transaction good_web3 0 alice (store_of full_intent)))
  = [ESignTransaction full_intent "a11ce";
     ESendRawTransaction (rawTransaction example_signed);
     EWaitForTransactionReceipt hash_a;
     ESetResult 0 (example_receipt hash_a)].
Proof. vm_compute. reflexivity. Qed.

Lemma receipt_of_hash_good : receipt_of_hash good_web3.
Proof. intros h r H. simpl in H. by injection H as <-. Qed.



Lemma completion_keeps_present_fields_witness :
  complete_fields good_web3 0 alice (store_of full_intent)
    = (Returned tt, store_of full_intent) /\
  fields_run good_web3 0 alice (store_of full_intent)
    = (Returned tt, snd (create_future (store_of full_intent))) /\
  (wf (store_of full_intent) ->
   forall k,
     deref 0 (snd (send_transaction good_web3 0 alice (store_of full_intent))) !! k
     = full_intent !! k).
Proof.
  apply (completion_keeps_present_fields good_web3 0%nat alice
           (store_of full_intent) full_intent (VInt 30000) (VInt 2) (VInt 3));
    vm_compute; reflexivity.
Defined.

Lemma receipt_hash_matches_submission_witness :
  exists signed_tx tx_hash,
    sign_transaction good_web3
      (signing_input good_web3 0 alice (store_of bare_intent)) (private_key alice)
      = Ok signed_tx /\
    sendRawTransaction good_web3 (rawTransaction signed_tx) = Ok tx_hash /\
    waitForTransactionReceipt good_web3 tx_hash = Ok (example_receipt hash_a) /\
    transactionHash (example_receipt hash_a) = tx_hash.
Proof.
  apply (receipt_hash_matches_submission good_web3 0%nat alice
           (store_of bare_intent) (example_receipt hash_a)).
  - apply wf_store_of.
  - apply receipt_of_hash_good.
  - vm_compute. reflexivity.
Defined.








(** ** The contract methods *)

Lemma contract_method_run w c call acting s :
  contract_method w c call acting s =
    let base := {["from" := VStr (address acting)]} in
    match buildTransaction w c call base with
    | Raise e => (Raised e, log (EBuildTransaction c call base) s)
    | Ok tx =>
        let d := fresh (dom (heap s)) in
        let s1 := set_heap (<[d := tx]> (heap s))
                           (log (EBuildTransaction c call base) s) in
        (discard_receipt (fst (send_transaction w d acting s1)),
         snd (send_transaction w d acting s1))
    end.
Proof.
  unfold contract_method, build. unfold mbind at 1 2 3, M_bind at 1 2 3.
  unfold web3_call, dict_new. simpl.
  destruct (buildTransaction w c call _) as [tx|e]; simpl; [|done].
  by destruct (send_transaction w _ acting _) as [[r|e|] s'].
Qed.

Lemma invoke_run w c i acting s :
  invoke w c i acting s =
    match call_of w i with
    | Ok call => contract_method w c call acting (before_build i s)
    | Raise e => (Raised e, before_build i s)
    end.
Proof.
  destruct i as [r a|sd r a|sp a|a n sg]; simpl; try reflexivity.
  unfold TFCManager_claim_tfc, contract_method.
  unfold mbind at 1 4, M_bind at 1 4. unfold web3_call at 1.
  by destruct (toBytes w sg) as [sig|e].
Qed.

(** C7, as the code has it.  Each of [transfer], [transfer_from], [approve]
    and [claim_tfc] builds an intent whose [data] is the ABI-encoded call,
    whose [to] is the contract's address and whose [from] is the address of
    the acting account, hands this very dict and the acting account to
    [send_transaction], and awaits it.  The receipt is dropped: the method
    returns [None] when [send_transaction] returns, and raises what it
    raises. *)
Theorem contract_methods_send_and_drop_receipt w c i acting s call tx :
  builds_intents w ->
  call_of w i = Ok call ->
  buildTransaction w c call {["from" := VStr (address acting)]} = Ok tx ->
  let s0 := before_build i s in
  let d := fresh (dom (heap s0)) in
  let s1 := set_heap (<[d := tx]> (heap s0))
              (log (EBuildTransaction c call {["from" := VStr (address acting)]}) s0) in
  tx !! "data" = Some (VBytes (encodeABI w c call)) /\
  tx !! "to" = Some (VStr (contract_address c)) /\
  tx !! "from" = Some (VStr (address acting)) /\
  heap s1 !! d = Some tx /\
  invoke w c i acting s =
    (discard_receipt (fst (send_transaction w d acting s1)),
     snd (send_transaction w d acting s1)) /\
  forall r, fst (invoke w c i acting s) <> Returned (Some r).
Proof.
  intros B Hc Hb s0 d s1.
  destruct (B c call _ tx Hb) as (Hto & Hdata & Hfrom).
  rewrite lookup_singleton_eq in Hfrom.
  split; [done|]. split; [done|]. split; [done|].
  split; [subst s1; simpl; by rewrite lookup_insert_eq|].
  assert (invoke w c i acting s =
            (discard_receipt (fst (send_transaction w d acting s1)),
             snd (send_transaction w d acting s1))) as Heq.
  { rewrite invoke_run, Hc, contract_method_run. cbv zeta. by rewrite Hb. }
  split; [done|].
  intros r. rewrite Heq. simpl.
  by destruct (fst (send_transaction w d acting s1)).
Qed.

Lemma builds_intents_good : builds_intents good_web3.
Proof.
  intros c call base tx H. simpl in H. unfold example_build in H.
  injection H as <-.
  split; [by rewrite lookup_insert_eq|].
  split; [by rewrite lookup_insert_ne, lookup_insert_eq|].
  by rewrite !lookup_insert_ne.
Qed.

(** C7, as stated, fails.  On a chain where everything succeeds the future of
    [send_transaction] is resolved with the receipt, and [transfer] returns
    [None]: its caller does not receive the receipt. *)
Lemma transfer_returns_None_not_receipt :
  let run := invoke good_web3 tfc_token (Transfer (address bob) 5) alice empty_store in
  resolutions 0 (trace (snd run)) = [Ok (example_receipt hash_a)] /\
  fst run = Returned None /\
  fst run <> Returned (Some (example_receipt hash_a)).
Proof.
  cbv zeta. split; [vm_compute; reflexivity|].
  assert (fst (invoke good_web3 tfc_token (Transfer (address bob) 5) alice empty_store)
          = Returned None) as -> by (vm_compute; reflexivity).
  split; [reflexivity | discriminate].
Qed.

Lemma contract_methods_send_and_drop_receipt_witness :
  let i := Transfer (address bob) 5 in
  let call := Call_transfer (address bob) 5 in
  let tx := <["to" := VStr (contract_address tfc_token)]>
              (<["data" := VBytes (example_encode tfc_token call)]>
                 {["from" := VStr (address alice)]}) in
  let s0 := before_build i empty_store in
  let d := fresh (dom (heap s0)) in
  let s1 := set_heap (<[d := tx]> (heap s0))
              (log (EBuildTransaction tfc_token call {["from" := VStr (address alice)]})
                   s0) in
  tx !! "data" = Some (VBytes (encodeABI good_web3 tfc_token call)) /\
  tx !! "to" = Some (VStr (contract_address tfc_token)) /\
  tx !! "from" = Some (VStr (address alice)) /\
  heap s1 !! d = Some tx /\
  invoke good_web3 tfc_token i alice empty_store =
    (discard_receipt (fst (send_transaction good_web3 d alice s1)),
     snd (send_transaction good_web3 d alice s1)) /\
  forall r, fst (invoke good_web3 tfc_token i alice empty_store) <> Returned (Some r).
Proof.
  apply (contract_methods_send_and_drop_receipt good_web3 tfc_token
           (Transfer (address bob) 5) alice empty_store
           (Call_transfer (address bob) 5)).
  - apply builds_intents_good.
  - reflexivity.
  - reflexivity.
Defined.

(** ** claim_tfc and its signature *)




(** ** SDK.__init__ *)

Lemma lstrip_chars_spec cs :
  exists l, cs = l ++ lstrip_chars cs /\ all_space l /\
            match lstrip_chars cs with
            | c :: _ => isspace c = false
            | [] => True
            end.
Proof.
  induction cs as [|c cs (l & E & A & H)]; simpl.
  - exists []. repeat split. constructor.
  - destruct (isspace c) eqn:S.
    + exists (c :: l). split; [simpl; by rewrite <- E|].
      split; [by constructor | done].
    + exists []. split; [done|]. split; [constructor | done].
Qed.

Lemma all_space_rev cs : all_space cs -> all_space (rev cs).
Proof. unfold all_space. apply List.Forall_rev. Qed.

Lemma rstrip_chars_spec cs :
  exists r, cs = rstrip_chars cs ++ r /\ all_space r /\
            match rev (rstrip_chars cs) with
            | c :: _ => isspace c = false
            | [] => True
            end.
Proof.
  unfold rstrip_chars.
  destruct (lstrip_chars_spec (rev cs)) as (l & E & A & H).
  exists (rev l). split.
  - rewrite <- rev_app_distr, <- E. by rewrite rev_involutive.
  - split; [by apply all_space_rev|]. by rewrite rev_involutive.
Qed.

(** Stripping at the end leaves the first character where it is. *)
Lemma rstrip_chars_head c cs :
  isspace c = false ->
  exists rest, rstrip_chars (c :: cs) = c :: rest.
Proof.
  intros Hc.
  destruct (rstrip_chars_spec (c :: cs)) as (r & E & A & H).
  destruct (rstrip_chars (c :: cs)) as [|c' rest] eqn:R; simpl in E.
  - subst r. apply Forall_inv in A. congruence.
  - injection E as <- _. eauto.
Qed.

Lemma strip_spec e :
  let stripped := list_ascii_of_string (strip e) in
  (exists l r, list_ascii_of_string e = l ++ stripped ++ r /\
               all_space l /\ all_space r) /\
  match stripped with c :: _ => isspace c = false | [] => True end /\
  match rev stripped with c :: _ => isspace c = false | [] => True end.
Proof.
  unfold strip. cbv zeta. rewrite list_ascii_of_string_of_list_ascii.
  destruct (lstrip_chars_spec (list_ascii_of_string e)) as (l & El & Al & Hl).
  destruct (rstrip_chars_spec (lstrip_chars (list_ascii_of_string e)))
    as (r & Er & Ar & Hr).
  split; [exists l, r; split; [by rewrite <- Er|done]|].
  split; [|done].
  destruct (lstrip_chars (list_ascii_of_string e)) as [|c cs] eqn:L; [done|].
  by destruct (rstrip_chars_head c cs Hl) as [rest ->].
Qed.

(** C10. [SDK.__init__] strips the endpoint first, so [None] fails in
    [strip()] with an [AttributeError], before any check.  Of a string the
    surrounding whitespace is removed; if what is left starts with "http" the
    provider is an HTTP provider for it, else if it starts with "ws" a
    websocket provider, and otherwise a [ValueError] is raised whose message
    names it. *)
Theorem SDK_init_selects_provider :
  SDK_init None = Raise AttributeError_strip /\
  exn_class AttributeError_strip = "AttributeError" /\
  forall e,
    let endpoint := strip e in
    SDK_init (Some e) =
      (if startswith endpoint "http" then Ok (HTTPProvider endpoint)
       else if startswith endpoint "ws" then Ok (WebsocketProvider endpoint)
       else Raise (Exn "ValueError" ("unsupported Ethereum endpoint " +:+ endpoint))) /\
    (exists l r, list_ascii_of_string e = l ++ list_ascii_of_string endpoint ++ r /\
                 all_space l /\ all_space r) /\
    match list_ascii_of_string endpoint with
    | c :: _ => isspace c = false
    | [] => True
    end /\
    match rev (list_ascii_of_string endpoint) with
    | c :: _ => isspace c = false
    | [] => True
    end.
Proof.
  split; [reflexivity|]. split; [reflexivity|].
  intros e endpoint. split; [reflexivity|]. apply strip_spec.
Qed.

Example SDK_init_http :
  SDK_init (Some "  http://localhost:8545 ") = Ok (HTTPProvider "http://localhost:8545").
Proof. reflexivity. Qed.

Example SDK_init_ws :
  SDK_init (Some "ws://node:8546") = Ok (WebsocketProvider "ws://node:8546").
Proof. reflexivity. Qed.

Example SDK_init_ipc :
  SDK_init (Some " /tmp/geth.ipc") =
  Raise (Exn "ValueError" "unsupported Ethereum endpoint /tmp/geth.ipc").
Proof. reflexivity. Qed.

(** ** Unit conversion *)

Lemma to_integral_exact c k : 0 <= k -> to_integral (mkDecimal c k) = c * 10 ^ k.
Proof.
  intros Hk. unfold to_integral. simpl.
  destruct (Z.leb_spec 0 k); [done | lia].
Qed.

(** [int(d)] drops the digits below the unit, towards zero. *)
Lemma to_integral_truncates c k :
  k < 0 ->
  let q := 10 ^ (- k) in
  let n := to_integral (mkDecimal c k) in
  Z.abs n * q <= Z.abs c < (Z.abs n + 1) * q /\ 0 <= n * c.
Proof.
  intros Hk q n. subst n. unfold to_integral. simpl.
  destruct (Z.leb_spec 0 k); [lia|]. fold q.
  assert (0 < q) as Hq by (apply Z.pow_pos_nonneg; lia).
  assert (Z.abs (c ÷ q) = Z.abs c / q) as Habs.
  { rewrite <- Z.quot_abs by lia. rewrite (Z.abs_eq q) by lia.
    apply Z.quot_div_nonneg; lia. }
  rewrite Habs. split.
  - split.
    + rewrite Z.mul_comm. apply Z.mul_div_le. lia.
    + rewrite Z.mul_comm. apply Z.mul_succ_div_gt. lia.
  - destruct (Z.le_gt_cases 0 c) as [Hc|Hc].
    + apply Z.mul_nonneg_nonneg; [|done]. apply Z.quot_pos; lia.
    + replace c with (- (- c)) at 1 by lia.
      rewrite Z.quot_opp_l by lia.
      assert (0 <= (- c) ÷ q) by (apply Z.quot_pos; lia). nia.
Qed.

(** C4. Both directions use the unit "ether", a scale of 10^18, on exact
    decimals: the ether amount of [w] wei is the decimal [w * 10^-18], and
    for [w] a multiple of 10^18 the way to ether and back gives [w] again, as
    does the whole number of ether it amounts to.  Of a decimal amount of
    ether, [eth_to_wei] gives the exact number of wei when there is no
    fraction of a wei, and otherwise drops the fraction, towards zero. *)
Theorem wei_eth_round_trip (w : Z) (d : Decimal) :
  (10 ^ 18 | w) ->
  wei_to_eth w = Ok (mkDecimal w (- 18)) /\
  result_bind (wei_to_eth w) eth_to_wei = Ok w /\
  eth_to_wei (mkDecimal (w / 10 ^ 18) 0) = Ok w /\
  exists n,
    eth_to_wei d = Ok n /\
    if 0 <=? exponent d + 18 then n = coefficient d * 10 ^ (exponent d + 18)
    else
      let q := 10 ^ (- (exponent d + 18)) in
      Z.abs n * q <= Z.abs (coefficient d) < (Z.abs n + 1) * q /\
      0 <= n * coefficient d.
Proof.
  intros [m Hm].
  split; [reflexivity|].
  split.
  { unfold wei_to_eth, eth_to_wei, fromWei, toWei. simpl.
    rewrite to_integral_exact by lia. simpl. f_equal. lia. }
  split.
  { unfold eth_to_wei, toWei. simpl. rewrite to_integral_exact by lia.
    f_equal. subst w. rewrite Z.div_mul by lia. lia. }
  exists (to_integral (mkDecimal (coefficient d) (exponent d + 18))).
  split; [reflexivity|].
  destruct (Z.leb_spec 0 (exponent d + 18)) as [H|H].
  - by apply to_integral_exact.
  - by apply to_integral_truncates.
Qed.

Lemma wei_eth_round_trip_witness :
  (10 ^ 18 | 3 * 10 ^ 18) /\
  wei_to_eth (3 * 10 ^ 18) = Ok (mkDecimal (3 * 10 ^ 18) (- 18)) /\
  result_bind (wei_to_eth (3 * 10 ^ 18)) eth_to_wei = Ok (3 * 10 ^ 18) /\
  eth_to_wei (mkDecimal (3 * 10 ^ 18 / 10 ^ 18) 0) = Ok (3 * 10 ^ 18) /\
  exists n,
    eth_to_wei (mkDecimal 15 (- 19)) = Ok n /\
    if 0 <=? exponent (mkDecimal 15 (- 19)) + 18
    then n = coefficient (mkDecimal 15 (- 19))
             * 10 ^ (exponent (mkDecimal 15 (- 19)) + 18)
    else
      let q := 10 ^ (- (exponent (mkDecimal 15 (- 19)) + 18)) in
      Z.abs n * q <= Z.abs (coefficient (mkDecimal 15 (- 19))) < (Z.abs n + 1) * q /\
      0 <= n * coefficient (mkDecimal 15 (- 19)).
Proof.
  split; [exists 3; reflexivity|].
  apply (wei_eth_round_trip (3 * 10 ^ 18) (mkDecimal 15 (- 19))).
  exists 3. reflexivity.
Defined.

Example eth_to_wei_tenth : eth_to_wei (mkDecimal 1 (- 1)) = Ok (10 ^ 17).
Proof. reflexivity. Qed.

Example eth_to_wei_below_one_wei : eth_to_wei (mkDecimal 15 (- 19)) = Ok 1.
Proof. reflexivity. Qed.

Example eth_to_wei_negative_fraction : eth_to_wei (mkDecimal (- 15) (- 19)) = Ok (- 1).
Proof. reflexivity. Qed.

Example wei_to_eth_not_a_multiple :
  result_bind (wei_to_eth 1) eth_to_wei = Ok 1.
Proof. reflexivity. Qed.

(** ** The decoder against an encoder *)

Lemma unhexlify_byte b rest :
  unhexlify (hex_char (Byte.to_N b / 16)%N :: hex_char (Byte.to_N b mod 16)%N :: rest)
  = result_map (cons b) (unhexlify rest).
Proof. destruct b; reflexivity. Qed.

Lemma unhexlify_hexlify bs : unhexlify (hexlify bs) = Ok bs.
Proof.
  induction bs as [|b bs IH]; [done|].
  change (hexlify (b :: bs))
    with (hex_char (Byte.to_N b / 16)%N :: hex_char (Byte.to_N b mod 16)%N :: hexlify bs).
  by rewrite unhexlify_byte, IH.
Qed.

Lemma substring_all s : String.substring 0 (String.length s) s = s.
Proof. induction s as [|c s IH]; simpl; [done | by rewrite IH]. Qed.

Lemma remove_0x_prefix_0x t : remove_0x_prefix (String "0" (String "x" t)) = t.
Proof.
  unfold remove_0x_prefix.
  assert (startswith (String "0" (String "x" t)) "0x" = true) as ->
    by (destruct t; reflexivity).
  cbn [orb String.length Nat.sub String.substring].
  rewrite Nat.sub_0_r. apply substring_all.
Qed.

(** Every byte string, written in hex after "0x", decodes to itself. *)
Lemma decode_hex_hexlify bs :
  decode_hex (String "0" (String "x" (string_of_list_ascii (hexlify bs)))) = Ok bs.
Proof.
  unfold decode_hex.
  rewrite remove_0x_prefix_0x, list_ascii_of_string_of_list_ascii.
  apply unhexlify_hexlify.
Qed.

(** ** Two calls under way *)

Example busy_run_resolves_each_future_once :
  let run := send_transaction good_web3 0 alice (busy_store full_intent) in
  fst run = Returned (example_receipt hash_a) /\
  futures (snd run)
    = [Finished (Raise connection_lost); Finished (Ok (example_receipt hash_a))] /\
  resolutions 0 (trace (snd run)) = [Raise connection_lost] /\
  resolutions 1 (trace (snd run)) = [Ok (example_receipt hash_a)].
Proof. vm_compute. repeat split; reflexivity. Qed.

(** * More about the code *)

(** ** Field completion, block by block *)

Lemma complete_gas_absent w t s :
  deref t s !! "gas" = None ->
  complete_gas w t s =
    match estimateGas w (deref t s) with
    | Ok g =>
        (Returned tt,
         set_heap (<[t := <["gas" := VInt g]> (deref t s)]> (heap s))
                  (log (EEstimateGas (deref t s)) s))
    | Raise e => (Raised e, log (EEstimateGas (deref t s)) s)
    end.
Proof.
  intros H. unfold complete_gas. unfold mbind, M_bind, dict_contains.
  rewrite H, bool_decide_eq_false_2 by (by intros [? ?]). simpl.
  unfold dict_read, web3_call. by destruct (estimateGas w _).
Qed.

Lemma complete_gasPrice_absent w t s :
  deref t s !! "gasPrice" = None ->
  let s0 := log (EGenerateGasPrice (deref t s))
              (log ESetGasPriceStrategy (set_strategy (Some rpc_gas_price_strategy) s)) in
  complete_gasPrice w t s =
    match rpc_gas_price w (deref t s) with
    | Ok p =>
        (Returned tt,
         set_heap (<[t := <["gasPrice" := VInt p]> (deref t s)]> (heap s)) s0)
    | Raise e => (Raised e, s0)
    end.
Proof.
  intros H s0. unfold complete_gasPrice. unfold mbind, M_bind, dict_contains.
  rewrite H, bool_decide_eq_false_2 by (by intros [? ?]). simpl.
  unfold dict_read, generateGasPrice. simpl.
  by destruct (rpc_gas_price w _).
Qed.

Lemma complete_nonce_absent w t sender s :
  deref t s !! "nonce" = None ->
  let s0 := log (EGetTransactionCount (address sender)) s in
  complete_nonce w t sender s =
    match getTransactionCount w (address sender) with
    | Ok n =>
        (Returned tt,
         set_heap (<[t := <["nonce" := VInt n]> (deref t s)]> (heap s)) s0)
    | Raise e => (Raised e, s0)
    end.
Proof.
  intros H s0. unfold complete_nonce. unfold mbind, M_bind, dict_contains.
  rewrite H, bool_decide_eq_false_2 by (by intros [? ?]). simpl.
  unfold web3_call. by destruct (getTransactionCount w _).
Qed.

Lemma deref_set_heap t m h s0 :
  deref t (set_heap (<[t := m]> h) s0) = m.
Proof. unfold deref. simpl. by rewrite lookup_insert_eq. Qed.

(** What each block leaves in the dict when it returns. *)
Lemma complete_gas_value w t s s' :
  complete_gas w t s = (Returned tt, s') ->
  exists vg,
    deref t s' = <["gas" := vg]> (deref t s) /\
    gasPriceStrategy s' = gasPriceStrategy s /\
    match deref t s !! "gas" with
    | Some v => vg = v
    | None => exists g, estimateGas w (deref t s) = Ok g /\ vg = VInt g
    end.
Proof.
  destruct (deref t s !! "gas") as [v|] eqn:G.
  - rewrite (complete_gas_present _ _ _ _ G). intros [= <-].
    exists v. by rewrite insert_id.
  - rewrite (complete_gas_absent _ _ _ G).
    destruct (estimateGas w _) as [g|e]; [|done]. intros [= <-].
    exists (VInt g). rewrite deref_set_heap. eauto.
Qed.

Lemma complete_gasPrice_value w t s s' :
  complete_gasPrice w t s = (Returned tt, s') ->
  exists vp,
    deref t s' = <["gasPrice" := vp]> (deref t s) /\
    gasPriceStrategy s' =
      match deref t s !! "gasPrice" with
      | Some _ => gasPriceStrategy s
      | None => Some rpc_gas_price_strategy
      end /\
    match deref t s !! "gasPrice" with
    | Some v => vp = v
    | None => exists p, rpc_gas_price w (deref t s) = Ok p /\ vp = VInt p
    end.
Proof.
  destruct (deref t s !! "gasPrice") as [v|] eqn:G.
  - rewrite (complete_gasPrice_present _ _ _ _ G). intros [= <-].
    exists v. by rewrite insert_id.
  - rewrite (complete_gasPrice_absent _ _ _ G).
    destruct (rpc_gas_price w _) as [p|e]; [|done]. intros [= <-].
    exists (VInt p). rewrite deref_set_heap. eauto.
Qed.

Lemma complete_nonce_value w t sender s s' :
  complete_nonce w t sender s = (Returned tt, s') ->
  exists vn,
    deref t s' = <["nonce" := vn]> (deref t s) /\
    gasPriceStrategy s' = gasPriceStrategy s /\
    match deref t s !! "nonce" with
    | Some v => vn = v
    | None => exists n, getTransactionCount w (address sender) = Ok n /\ vn = VInt n
    end.
Proof.
  destruct (deref t s !! "nonce") as [v|] eqn:G.
  - rewrite (complete_nonce_present _ _ _ _ _ G). intros [= <-].
    exists v. by rewrite insert_id.
  - rewrite (complete_nonce_absent _ _ _ _ G).
    destruct (getTransactionCount w _) as [n|e]; [|done]. intros [= <-].
    exists (VInt n). rewrite deref_set_heap. eauto.
Qed.

Lemma complete_fields_steps w t sender s s' :
  complete_fields w t sender s = (Returned tt, s') ->
  exists s1 s2,
    complete_gas w t s = (Returned tt, s1) /\
    complete_gasPrice w t s1 = (Returned tt, s2) /\
    complete_nonce w t sender s2 = (Returned tt, s').
Proof.
  unfold complete_fields. unfold mbind, M_bind.
  destruct (complete_gas w t s) as [[[]|e|] s1] eqn:E1; [|done..].
  destruct (complete_gasPrice w t s1) as [[[]|e|] s2] eqn:E2; [|done..].
  intros H. by exists s1, s2.
Qed.

(** X1. When field completion returns, the dict holds, for each of [gas],
    [gasPrice], [nonce], the value it had, or else the chain's answer: the
    gas estimated for the intent as passed, the price quoted for the intent
    with its gas, and the transaction count of the sender's address (of the
    account that signs, whatever [from] says). *)
Theorem completion_values w transaction sender s tx s' :
  heap s !! transaction = Some tx ->
  complete_fields w transaction sender s = (Returned tt, s') ->
  exists vg vp vn,
    heap s' !! transaction = Some (completed tx vg vp vn) /\
    match tx !! "gas" with
    | Some v => vg = v
    | None => exists g, estimateGas w tx = Ok g /\ vg = VInt g
    end /\
    match tx !! "gasPrice" with
    | Some v => vp = v
    | None => exists p, rpc_gas_price w (<["gas" := vg]> tx) = Ok p /\ vp = VInt p
    end /\
    match tx !! "nonce" with
    | Some v => vn = v
    | None => exists n, getTransactionCount w (address sender) = Ok n /\ vn = VInt n
    end.
Proof.
  intros Ht H.
  destruct (complete_fields_steps _ _ _ _ _ H) as (s1 & s2 & H1 & H2 & H3).
  destruct (complete_gas_value _ _ _ _ H1) as (vg & D1 & _ & V1).
  destruct (complete_gasPrice_value _ _ _ _ H2) as (vp & D2 & _ & V2).
  destruct (complete_nonce_value _ _ _ _ _ H3) as (vn & D3 & _ & V3).
  rewrite (deref_Some _ _ _ Ht) in *.
  rewrite D1 in D2, V2. rewrite D2 in D3, V3.
  rewrite lookup_insert_ne in V2 by done.
  rewrite !lookup_insert_ne in V3 by done.
  exists vg, vp, vn. split; [|done].
  pose proof (complete_fields_fills w transaction sender s) as F.
  cbv zeta in F. destruct F as (_ & _ & _ & _ & A).
  rewrite H in A. simpl in A.
  destruct A as [tx' Htx']; [by rewrite Ht; eauto|].
  rewrite (deref_Some _ _ _ Htx') in D3. by rewrite Htx', D3.
Qed.

Lemma complete_gas_strategy w t s :
  gasPriceStrategy (snd (complete_gas w t s)) = gasPriceStrategy s.
Proof.
  destruct (deref t s !! "gas") as [v|] eqn:G.
  - by rewrite (complete_gas_present _ _ _ _ G).
  - rewrite (complete_gas_absent _ _ _ G). by destruct (estimateGas w _).
Qed.

Lemma complete_nonce_strategy w t sender s :
  gasPriceStrategy (snd (complete_nonce w t sender s)) = gasPriceStrategy s.
Proof.
  destruct (deref t s !! "nonce") as [v|] eqn:G.
  - by rewrite (complete_nonce_present _ _ _ _ _ G).
  - rewrite (complete_nonce_absent _ _ _ _ G).
    by destruct (getTransactionCount w _).
Qed.

Lemma complete_gasPrice_strategy w t s :
  gasPriceStrategy (snd (complete_gasPrice w t s)) =
    match deref t s !! "gasPrice" with
    | Some _ => gasPriceStrategy s
    | None => Some rpc_gas_price_strategy
    end.
Proof.
  destruct (deref t s !! "gasPrice") as [v|] eqn:G.
  - by rewrite (complete_gasPrice_present _ _ _ _ G).
  - rewrite (complete_gasPrice_absent _ _ _ G).
    by destruct (rpc_gas_price w _).
Qed.

(** X2. [send_transaction] installs the RPC gas price strategy in the shared
    [web3] exactly when the intent has no [gasPrice] (and completion got past
    the gas estimate): afterwards that strategy is the installed one,
    whatever was installed before and however the call ends; with a
    [gasPrice] in the intent the installed strategy is left alone. *)
Theorem send_transaction_installs_strategy w transaction sender s tx :
  wf s ->
  heap s !! transaction = Some tx ->
  is_Some (tx !! "gas") \/ (exists g, estimateGas w tx = Ok g) ->
  gasPriceStrategy (snd (send_transaction w transaction sender s)) =
    match tx !! "gasPrice" with
    | Some _ => gasPriceStrategy s
    | None => Some rpc_gas_price_strategy
    end.
Proof.
  intros WF Ht Hg.
  destruct (send_transaction_heap w transaction sender s WF) as [_ ->].
  unfold fields_run.
  set (s0 := snd (create_future s)).
  assert (heap s0 !! transaction = Some tx) as Ht0 by done.
  assert (gasPriceStrategy s0 = gasPriceStrategy s) as <- by done.
  pose proof (deref_Some _ _ _ Ht0) as D0.
  assert (exists s1, complete_gas w transaction s0 = (Returned tt, s1)) as [s1 H1].
  { destruct (tx !! "gas") as [v|] eqn:G.
    - rewrite (complete_gas_present _ _ _ v); [eauto | by rewrite D0].
    - destruct Hg as [[? ?]|[g Hg]]; [done|].
      rewrite complete_gas_absent by (by rewrite D0).
      rewrite D0, Hg. eauto. }
  destruct (complete_gas_value _ _ _ _ H1) as (vg & D1 & S1 & _).
  assert (deref transaction s1 !! "gasPrice" = tx !! "gasPrice") as P1
    by (by rewrite D1, D0, lookup_insert_ne).
  pose proof (complete_gasPrice_strategy w transaction s1) as S2.
  rewrite P1, S1 in S2.
  unfold complete_fields. unfold mbind, M_bind. rewrite H1.
  destruct (complete_gasPrice w transaction s1) as [[[]|e|] s2]; simpl in *;
    [|done..].
  by rewrite complete_nonce_strategy.
Qed.



(** ** One call, from signing on *)

Lemma count_events_app p tr1 tr2 :
  count_events p (tr1 ++ tr2) = (count_events p tr1 + count_events p tr2)%nat.
Proof. induction tr1 as [|ev tr1 IH]; simpl; [done | rewrite IH; lia]. Qed.

Lemma count_events_queries p tr :
  (forall ev, is_query ev -> p ev = false) ->
  Forall is_query tr -> count_events p tr = 0%nat.
Proof.
  intros Hp. induction 1 as [|ev tr Hev _ IH]; simpl; [done|].
  by rewrite (Hp ev Hev), IH.
Qed.

Lemma wf_nothing_queued s : ready s = [] -> wf s.
Proof. unfold wf. intros ->. constructor. Qed.

Lemma count_events_resolution p fut r :
  (forall f x, p (ESetResult f x) = false) ->
  (forall f x, p (ESetException f x) = false) ->
  count_events p (resolution_events fut r) = 0%nat.
Proof.
  intros H1 H2. destruct r as [x|e]; simpl; [by rewrite H1|].
  destruct (is_Exception e); simpl; [by rewrite H2 | done].
Qed.

(** X5. With nothing else queued, what one call does after the completion
    queries is, in this order: sign the completed intent with the sender's
    key; submit the raw bytes of what was signed; wait for the receipt of the
    hash that submission answered; resolve the future.  Each step is made
    once at most and only if the one before it succeeded, so nothing is
    attempted a second time after a failure. *)
Theorem send_transaction_never_retries w transaction sender s :
  ready s = [] ->
  let run := send_transaction w transaction sender s in
  let fut := length (futures s) in
  let tx := signing_input w transaction sender s in
  let key := private_key sender in
  exists queries rest,
    trace (snd run) = trace s ++ queries ++ rest /\
    Forall is_query queries /\
    ((rest = [] /\ exists e, fst (fields_run w transaction sender s) = Raised e) \/
     (rest = [ESignTransaction tx key] /\
      exists e, sign_transaction w tx key = Raise e) \/
     (exists signed_tx e,
        sign_transaction w tx key = Ok signed_tx /\
        sendRawTransaction w (rawTransaction signed_tx) = Raise e /\
        rest = [ESignTransaction tx key;
                ESendRawTransaction (rawTransaction signed_tx)]
               ++ resolution_events fut (Raise e)) \/
     (exists signed_tx tx_hash,
        sign_transaction w tx key = Ok signed_tx /\
        sendRawTransaction w (rawTransaction signed_tx) = Ok tx_hash /\
        rest = [ESignTransaction tx key;
                ESendRawTransaction (rawTransaction signed_tx);
                EWaitForTransactionReceipt tx_hash]
               ++ resolution_events fut (waitForTransactionReceipt w tx_hash))) /\
    (count_events is_signing (queries ++ rest) <= 1)%nat /\
    (count_events is_submission (queries ++ rest)
     <= count_events is_signing (queries ++ rest))%nat /\
    (count_events is_wait (queries ++ rest)
     <= count_events is_submission (queries ++ rest))%nat.
Proof.
  intros Hr run fut tx key. subst run tx key.
  pose proof (wf_nothing_queued s Hr) as WF.
  destruct (fields_run_before_task w transaction sender s)
    as (NS & F & R & q & T & Q).
  assert (count_events is_signing q = 0%nat) as Q1
    by (apply count_events_queries; [by intros []|done]).
  assert (count_events is_submission q = 0%nat) as Q2
    by (apply count_events_queries; [by intros []|done]).
  assert (count_events is_wait q = 0%nat) as Q3
    by (apply count_events_queries; [by intros []|done]).
  exists q.
  destruct (fst (fields_run w transaction sender s)) as [[]|e|] eqn:E; [| |done].
  - destruct (sign_transaction w (signing_input w transaction sender s)
                (private_key sender)) as [signed|e] eqn:S.
    + rewrite (send_transaction_signed_run w transaction sender s signed WF E S).
      cbv zeta. rewrite Hr. simpl. rewrite T.
      eexists (_ :: task_events w fut signed).
      split; [by rewrite <- !app_assoc|]. split; [done|].
      pose proof (count_events_resolution is_signing fut (task_result w signed)
                    ltac:(done) ltac:(done)) as C1.
      pose proof (count_events_resolution is_submission fut (task_result w signed)
                    ltac:(done) ltac:(done)) as C2.
      pose proof (count_events_resolution is_wait fut (task_result w signed)
                    ltac:(done) ltac:(done)) as C3.
      unfold task_events. unfold task_result in *.
      destruct (sendRawTransaction w (rawTransaction signed)) as [h|e] eqn:Sub.
      * split; [do 3 right; by exists signed, h|].
        rewrite !count_events_app, Q1, Q2, Q3.
        cbn [count_events app is_signing is_submission is_wait].
        rewrite C1, C2, C3. lia.
      * split; [right; right; left; by exists signed, e|].
        rewrite !count_events_app, Q1, Q2, Q3.
        cbn [count_events app is_signing is_submission is_wait].
        rewrite C1, C2, C3. lia.
    + rewrite (send_transaction_sign_fail w transaction sender s e E S). simpl.
      rewrite T. eexists [_]. split; [by rewrite <- app_assoc|]. split; [done|].
      split; [right; left; eauto|].
      rewrite !count_events_app, Q1, Q2, Q3. simpl. lia.
  - rewrite (send_transaction_fields_fail w transaction sender s e E). simpl.
    exists []. rewrite app_nil_r. split; [done|]. split; [done|].
    split; [left; eauto|]. rewrite Q1, Q2, Q3. lia.
Qed.


(** ** What a call leaves alone *)

(** X8. A call changes no dict but the one it was given: every other object
    of the store is after the call what it was before. *)
Theorem send_transaction_touches_only_its_dict w transaction sender s d :
  wf s ->
  d <> transaction ->
  heap (snd (send_transaction w transaction sender s)) !! d = heap s !! d.
Proof.
  intros WF Hd.
  destruct (send_transaction_heap w transaction sender s WF) as [-> _].
  unfold fields_run.
  pose proof (complete_fields_fills w transaction sender (snd (create_future s))) as F.
  cbv zeta in F. destruct F as (_ & _ & _ & O & _).
  by rewrite O.
Qed.

(** ** Methods that make their own intent *)

Lemma SDK_transfer_run w recipient amount sender s :
  SDK_transfer w recipient amount sender s =
    let d := fresh (dom (heap s)) in
    let s1 := set_heap (<[d := transfer_intent recipient amount sender]> (heap s)) s in
    (discard_receipt (fst (send_transaction w d sender s1)),
     snd (send_transaction w d sender s1)).
Proof.
  unfold SDK_transfer, transfer_intent. unfold mbind at 1 2, M_bind at 1 2.
  unfold dict_new. simpl.
  by destruct (send_transaction w _ sender _) as [[r|e|] s'].
Qed.

(** A call on a dict just made leaves the dicts that were there alone. *)
Lemma fresh_send_frame w acting s1 h tx d v :
  wf s1 ->
  heap s1 = <[fresh (dom h) := tx]> h ->
  h !! d = Some v ->
  heap (snd (send_transaction w (fresh (dom h)) acting s1)) !! d = Some v.
Proof.
  intros WF Hh Hd.
  assert (d <> fresh (dom h)) as Hne.
  { intros ->. apply (is_fresh (dom h)). apply elem_of_dom. eauto. }
  destruct (send_transaction_heap w (fresh (dom h)) acting s1 WF) as [-> _].
  unfold fields_run.
  pose proof (complete_fields_fills w (fresh (dom h)) acting (snd (create_future s1)))
    as F.
  cbv zeta in F. destruct F as (_ & _ & _ & O & _).
  rewrite O by done. simpl. by rewrite Hh, lookup_insert_ne.
Qed.

(** X9. The contract methods and [SDK.transfer] work on a dict of their own:
    whatever dicts the store held before such a call, it holds them
    unchanged after it, however the call ends. *)
Theorem methods_leave_existing_dicts w c i recipient amount acting s d v :
  wf s ->
  heap s !! d = Some v ->
  heap (snd (invoke w c i acting s)) !! d = Some v /\
  heap (snd (SDK_transfer w recipient amount acting s)) !! d = Some v.
Proof.
  intros WF Hd. split.
  - rewrite invoke_run.
    assert (wf (before_build i s)) as WF0 by (by destruct i).
    assert (heap (before_build i s) = heap s) as H0 by (by destruct i).
    destruct (call_of w i) as [call|e]; simpl; [|by rewrite H0].
    rewrite contract_method_run. cbv zeta.
    destruct (buildTransaction w c call _) as [tx|e]; simpl; [|by rewrite H0].
    apply (fresh_send_frame _ _ _ (heap (before_build i s)) tx);
      [done | done | by rewrite H0].
  - rewrite SDK_transfer_run. cbv zeta. simpl.
    by apply (fresh_send_frame _ _ _ (heap s)
                (transfer_intent recipient amount acting)).
Qed.



(** ** Deployment *)

Lemma deploy_tfc_manager_run w lib deployer s :
  deploy_tfc_manager w lib deployer s =
    match TFCManager_abi lib with
    | Raise e => (Raised e, s)
    | Ok abi =>
        match TFCManager_bytecode lib with
        | Raise e => (Raised e, s)
        | Ok bytecode =>
            match buildConstructorTransaction lib abi bytecode
                    {["from" := VStr (address deployer)]} with
            | Raise e => (Raised e, s)
            | Ok tx =>
                let d := fresh (dom (heap s)) in
                let s1 := set_heap (<[d := tx]> (heap s)) s in
                (match fst (send_transaction w d deployer s1) with
                 | Returned r => Returned (contractAddress r)
                 | Raised e => Raised e
                 | Suspended => Suspended
                 end,
                 snd (send_transaction w d deployer s1))
            end
        end
    end.
Proof.
  unfold deploy_tfc_manager. unfold mbind at 1 2 3 4 5, M_bind at 1 2 3 4 5.
  unfold library_call, dict_new.
  destruct (TFCManager_abi lib) as [abi|e]; simpl; [|done].
  destruct (TFCManager_bytecode lib) as [bytecode|e]; simpl; [|done].
  destruct (buildConstructorTransaction lib abi bytecode _) as [tx|e]; simpl;
    [|done].
  by destruct (send_transaction w _ deployer _) as [[r|e|] s'].
Qed.


(** X12. [deploy_tfc_manager] sends the intent that the contract's
    constructor built from the loaded ABI and bytecode, and hands on the
    [contractAddress] field of the receipt, whatever it holds.  When the
    method returns, what it returns is that field of the receipt which the
    chain gave for the hash that submission answered for the signed intent,
    and what was signed binds everything the built intent binds.  A receipt
    that names no contract makes it return [None], not raise. *)
Theorem deploy_returns_receipt_address w lib deployer s abi bytecode tx :
  wf s ->
  TFCManager_abi lib = Ok abi ->
  TFCManager_bytecode lib = Ok bytecode ->
  buildConstructorTransaction lib abi bytecode
    {["from" := VStr (address deployer)]} = Ok tx ->
  let d := fresh (dom (heap s)) in
  let s1 := set_heap (<[d := tx]> (heap s)) s in
  fst (deploy_tfc_manager w lib deployer s) =
    match fst (send_transaction w d deployer s1) with
    | Returned r => Returned (contractAddress r)
    | Raised e => Raised e
    | Suspended => Suspended
    end /\
  forall a,
    fst (deploy_tfc_manager w lib deployer s) = Returned a ->
    exists signed_tx tx_hash r,
      (forall k v, tx !! k = Some v ->
                   signing_input w d deployer s1 !! k = Some v) /\
      sign_transaction w (signing_input w d deployer s1) (private_key deployer)
        = Ok signed_tx /\
      sendRawTransaction w (rawTransaction signed_tx) = Ok tx_hash /\
      waitForTransactionReceipt w tx_hash = Ok r /\
      a = contractAddress r.
Proof.
  intros WF Ha Hb Hc d s1.
  assert (fst (deploy_tfc_manager w lib deployer s) =
            match fst (send_transaction w d deployer s1) with
            | Returned r => Returned (contractAddress r)
            | Raised e => Raised e
            | Suspended => Suspended
            end) as Heq.
  { rewrite deploy_tfc_manager_run, Ha, Hb, Hc. done. }
  split; [done|].
  intros a. rewrite Heq.
  destruct (fst (send_transaction w d deployer s1)) as [r|e|] eqn:R; [|done..].
  intros [= <-].
  destruct (send_transaction_returned w d deployer s1 r) as (sg & h & Hsg & Hs & Hw);
    [done | done |].
  exists sg, h, r. split; [|done].
  intros k v Hk. unfold signing_input, fields_run.
  apply complete_fields_fills.
  unfold deref. simpl. by rewrite lookup_insert_eq.
Qed.

(** ** Artifact files *)

Lemma readline_chars_first_line l (tail : option (list ascii)) :
  ~ In newline l ->
  readline_chars (l ++ match tail with Some r => newline :: r | None => [] end)
  = l ++ match tail with Some _ => [newline] | None => [] end.
Proof.
  induction l as [|c l IH]; simpl.
  - intros _. by destruct tail.
  - intros H. destruct (Ascii.eqb_spec c newline) as [->|Hc]; [tauto|].
    rewrite IH by tauto. done.
Qed.

(** X13. The bytecode of a contract is the first line of its artifact file,
    with the newline that ends the line when the file has one; what follows
    the first line is not read. *)
Theorem bytecode_is_first_line lib name l (tail : option (list ascii)) :
  ~ In newline l ->
  open_text lib name
    = Ok (string_of_list_ascii
            (l ++ match tail with Some r => newline :: r | None => [] end)) ->
  let line := string_of_list_ascii
                (l ++ match tail with Some _ => [newline] | None => [] end) in
  (name = "TFCManager.bin" -> TFCManager_bytecode lib = Ok line) /\
  (name = "TFCToken.bin" -> TFCToken_bytecode lib = Ok line).
Proof.
  intros Hl Ho line. subst line.
  split; intros ->; unfold TFCManager_bytecode, TFCToken_bytecode;
    rewrite Ho; simpl; unfold readline;
    by rewrite list_ascii_of_string_of_list_ascii, readline_chars_first_line.
Qed.

(** ** More about SDK.__init__ *)

Lemma lstrip_chars_space_prefix l cs :
  all_space l -> lstrip_chars (l ++ cs) = lstrip_chars cs.
Proof.
  induction 1 as [|c l Hc _ IH]; simpl; [done|]. by rewrite Hc.
Qed.

Lemma lstrip_chars_all_space l : all_space l -> lstrip_chars l = [].
Proof.
  intros H. rewrite <- (app_nil_r l). by rewrite lstrip_chars_space_prefix.
Qed.

Lemma rstrip_chars_space_suffix cs r :
  all_space r -> rstrip_chars (cs ++ r) = rstrip_chars cs.
Proof.
  intros H. unfold rstrip_chars. rewrite rev_app_distr.
  by rewrite lstrip_chars_space_prefix by (by apply all_space_rev).
Qed.

Lemma strip_chars_space_suffix cs r :
  all_space r ->
  rstrip_chars (lstrip_chars (cs ++ r)) = rstrip_chars (lstrip_chars cs).
Proof.
  intros H. induction cs as [|c cs IH]; simpl.
  - by rewrite lstrip_chars_all_space.
  - destruct (isspace c); [done|].
    by rewrite app_comm_cons, rstrip_chars_space_suffix.
Qed.

Lemma strip_surrounded l e r :
  all_space l -> all_space r ->
  strip (string_of_list_ascii (l ++ list_ascii_of_string e ++ r)) = strip e.
Proof.
  intros Hl Hr. unfold strip. rewrite list_ascii_of_string_of_list_ascii.
  by rewrite lstrip_chars_space_prefix, strip_chars_space_suffix.
Qed.

Lemma SDK_init_of_strip a b : strip a = strip b -> SDK_init (Some a) = SDK_init (Some b).
Proof. unfold SDK_init. simpl. by intros ->. Qed.

(** X14. Whitespace around the endpoint does not matter: with any
    whitespace put before and after a string, [SDK.__init__] chooses the
    provider, or raises the error, that it does for the string itself. *)
Theorem SDK_init_ignores_surrounding_whitespace l e r :
  all_space l -> all_space r ->
  SDK_init (Some (string_of_list_ascii (l ++ list_ascii_of_string e ++ r)))
  = SDK_init (Some e).
Proof.
  intros Hl Hr. apply SDK_init_of_strip. by apply strip_surrounded.
Qed.

(** X15. An endpoint that is empty or all whitespace is refused: the
    [ValueError] names an empty endpoint. *)
Theorem SDK_init_refuses_blank_endpoint e :
  all_space (list_ascii_of_string e) ->
  SDK_init (Some e) = Raise (Exn "ValueError" "unsupported Ethereum endpoint ").
Proof.
  intros H. unfold SDK_init. simpl.
  assert (strip e = "") as ->.
  { unfold strip. by rewrite lstrip_chars_all_space. }
  reflexivity.
Qed.

Lemma prefix_empty s : String.prefix "" s = true.
Proof. by destruct s. Qed.

Lemma prefix_shorter a b s :
  String.prefix (a +:+ b) s = true -> String.prefix a s = true.
Proof.
  revert s. induction a as [|c a IH]; intros s.
  - intros _. apply prefix_empty.
  - destruct s as [|c' s]; simpl; [done|].
    destruct (ascii_dec c c'); [apply IH | done].
Qed.

Lemma prefix_cons a p b s :
  String.prefix (String a p) (String b s)
  = if Ascii.eqb a b then String.prefix p s else false.
Proof.
  simpl. destruct (ascii_dec a b) as [->|N].
  - by rewrite Ascii.eqb_refl.
  - by destruct (Ascii.eqb_spec a b).
Qed.

Lemma prefix_wss_not_http x :
  String.prefix "wss" x = true -> String.prefix "http" x = false.
Proof.
  destruct x as [|c x]; [done|].
  rewrite !prefix_cons.
  destruct (Ascii.eqb_spec "w" c) as [<-|]; [|done].
  reflexivity.
Qed.

(** X16. The scheme is tested by prefix only: an endpoint that, stripped,
    starts with "https" gets the HTTP provider, and one that starts with
    "wss" the websocket provider. *)
Theorem SDK_init_secure_schemes e :
  startswith (strip e) "https" = true \/ startswith (strip e) "wss" = true ->
  SDK_init (Some e) =
    Ok (if startswith (strip e) "https" then HTTPProvider (strip e)
        else WebsocketProvider (strip e)).
Proof.
  unfold SDK_init. simpl. unfold startswith.
  generalize (strip e). intros x [H|H].
  - rewrite H. by rewrite (prefix_shorter "http" "s" x H).
  - rewrite (prefix_shorter "ws" "s" x H).
    pose proof (prefix_wss_not_http x H) as N. rewrite N.
    destruct (String.prefix "https" x) eqn:S; [|done].
    by rewrite (prefix_shorter "http" "s" x S) in N.
Qed.

(** ** The further properties, run *)

Lemma wf_busy_store tx : wf (busy_store tx).
Proof. constructor; [simpl; lia | constructor]. Qed.

Lemma completion_values_witness :
  exists vg vp vn,
    heap (snd (complete_fields good_web3 0 alice (store_of bare_intent))) !! 0%nat
      = Some (completed bare_intent vg vp vn) /\
    match bare_intent !! "gas" with
    | Some v => vg = v
    | None => exists g, estimateGas good_web3 bare_intent = Ok g /\ vg = VInt g
    end /\
    match bare_intent !! "gasPrice" with
    | Some v => vp = v
    | None => exists p, rpc_gas_price good_web3 (<["gas" := vg]> bare_intent) = Ok p /\
                        vp = VInt p
    end /\
    match bare_intent !! "nonce" with
    | Some v => vn = v
    | None => exists n, getTransactionCount good_web3 (address alice) = Ok n /\
                        vn = VInt n
    end.
Proof.
  apply (completion_values good_web3 0%nat alice (store_of bare_intent) bare_intent
           (snd (complete_fields good_web3 0 alice (store_of bare_intent))));
    vm_compute; reflexivity.
Defined.

Lemma send_transaction_installs_strategy_witness :
  gasPriceStrategy (snd (send_transaction good_web3 0 alice (store_of bare_intent))) =
    match bare_intent !! "gasPrice" with
    | Some _ => gasPriceStrategy (store_of bare_intent)
    | None => Some rpc_gas_price_strategy
    end.
Proof.
  apply (send_transaction_installs_strategy good_web3 0%nat alice
           (store_of bare_intent) bare_intent).
  - apply wf_store_of.
  - vm_compute. reflexivity.
  - right. exists 21000. reflexivity.
Defined.



Lemma send_transaction_never_retries_witness :
  let run := send_transaction good_web3 0 alice (store_of bare_intent) in
  let fut := length (futures (store_of bare_intent)) in
  let tx := signing_input good_web3 0 alice (store_of bare_intent) in
  let key := private_key alice in
  exists queries rest,
    trace (snd run) = trace (store_of bare_intent) ++ queries ++ rest /\
    Forall is_query queries /\
    ((rest = [] /\
      exists e, fst (fields_run good_web3 0 alice (store_of bare_intent)) = Raised e) \/
     (rest = [ESignTransaction tx key] /\
      exists e, sign_transaction good_web3 tx key = Raise e) \/
     (exists signed_tx e,
        sign_transaction good_web3 tx key = Ok signed_tx /\
        sendRawTransaction good_web3 (rawTransaction signed_tx) = Raise e /\
        rest = [ESignTransaction tx key;
                ESendRawTransaction (rawTransaction signed_tx)]
               ++ resolution_events fut (Raise e)) \/
     (exists signed_tx tx_hash,
        sign_transaction good_web3 tx key = Ok signed_tx /\
        sendRawTransaction good_web3 (rawTransaction signed_tx) = Ok tx_hash /\
        rest = [ESignTransaction tx key;
                ESendRawTransaction (rawTransaction signed_tx);
                EWaitForTransactionReceipt tx_hash]
               ++ resolution_events fut
                    (waitForTransactionReceipt good_web3 tx_hash))) /\
    (count_events is_signing (queries ++ rest) <= 1)%nat /\
    (count_events is_submission (queries ++ rest)
     <= count_events is_signing (queries ++ rest))%nat /\
    (count_events is_wait (queries ++ rest)
     <= count_events is_submission (queries ++ rest))%nat.
Proof.
  apply (send_transaction_never_retries good_web3 0%nat alice (store_of bare_intent)).
  reflexivity.
Defined.


Example interrupted_task_on_finished_future :
  fst (transaction_task interrupted_web3 0 example_signed finished_store)
  = Raised interrupted.
Proof. reflexivity. Qed.

Lemma send_transaction_touches_only_its_dict_witness :
  heap (snd (send_transaction good_web3 0 alice two_dicts)) !! 1%nat
  = heap two_dicts !! 1%nat.
Proof.
  apply (send_transaction_touches_only_its_dict good_web3 0%nat alice two_dicts 1%nat).
  - constructor.
  - lia.
Defined.

Lemma methods_leave_existing_dicts_witness :
  heap (snd (invoke good_web3 tfc_token (Transfer (address bob) 5) alice
               (store_of full_intent))) !! 0%nat = Some full_intent /\
  heap (snd (SDK_transfer good_web3 (address bob) 5 alice (store_of full_intent)))
    !! 0%nat = Some full_intent.
Proof.
  apply (methods_leave_existing_dicts good_web3 tfc_token (Transfer (address bob) 5)
           (address bob) 5 alice (store_of full_intent) 0%nat full_intent).
  - apply wf_store_of.
  - vm_compute. reflexivity.
Defined.


Example SDK_transfer_returns_None :
  fst (SDK_transfer good_web3 (address bob) 5 alice empty_store) = Returned None.
Proof. vm_compute. reflexivity. Qed.


Lemma deploy_returns_receipt_address_witness :
  let bytecode := string_of_list_ascii (list_ascii_of_string "6080" ++ [newline]) in
  let tx := <["data" := VStr bytecode]> {["from" := VStr (address alice)]} in
  let d := fresh (dom (heap empty_store)) in
  let s1 := set_heap (<[d := tx]> (heap empty_store)) empty_store in
  fst (deploy_tfc_manager deploying_web3 example_deployment alice empty_store) =
    match fst (send_transaction deploying_web3 d alice s1) with
    | Returned r => Returned (contractAddress r)
    | Raised e => Raised e
    | Suspended => Suspended
    end /\
  forall a,
    fst (deploy_tfc_manager deploying_web3 example_deployment alice empty_store)
      = Returned a ->
    exists signed_tx tx_hash r,
      (forall k v, tx !! k = Some v ->
                   signing_input deploying_web3 d alice s1 !! k = Some v) /\
      sign_transaction deploying_web3 (signing_input deploying_web3 d alice s1)
                       (private_key alice) = Ok signed_tx /\
      sendRawTransaction deploying_web3 (rawTransaction signed_tx) = Ok tx_hash /\
      waitForTransactionReceipt deploying_web3 tx_hash = Ok r /\
      a = contractAddress r.
Proof.
  apply (deploy_returns_receipt_address deploying_web3 example_deployment alice
           empty_store "[]"
           (string_of_list_ascii (list_ascii_of_string "6080" ++ [newline]))).
  - constructor.
  - reflexivity.
  - vm_compute. reflexivity.
  - reflexivity.
Defined.

Example deploy_returns_address :
  fst (deploy_tfc_manager deploying_web3 example_deployment alice empty_store)
  = Returned (Some "0xC0FFEE").
Proof. vm_compute. reflexivity. Qed.

Example deploy_without_contract_address :
  fst (deploy_tfc_manager good_web3 example_deployment alice empty_store)
  = Returned None.
Proof. vm_compute. reflexivity. Qed.

Lemma bytecode_is_first_line_witness :
  ("TFCManager.bin" = "TFCManager.bin" ->
   TFCManager_bytecode example_deployment
   = Ok (string_of_list_ascii (list_ascii_of_string "6080" ++ [newline]))) /\
  ("TFCManager.bin" = "TFCToken.bin" ->
   TFCToken_bytecode example_deployment
   = Ok (string_of_list_ascii (list_ascii_of_string "6080" ++ [newline]))).
Proof.
  apply (bytecode_is_first_line example_deployment "TFCManager.bin"
           (list_ascii_of_string "6080") (Some (list_ascii_of_string "junk"))).
  - simpl. intros [H|[H|[H|[H|[]]]]]; discriminate H.
  - reflexivity.
Defined.

Lemma SDK_init_ignores_surrounding_whitespace_witness :
  SDK_init (Some (string_of_list_ascii
                    (list_ascii_of_string "  " ++
                     list_ascii_of_string "ws://node:8546" ++
                     list_ascii_of_string " ")))
  = SDK_init (Some "ws://node:8546").
Proof.
  apply (SDK_init_ignores_surrounding_whitespace
           (list_ascii_of_string "  ") "ws://node:8546" (list_ascii_of_string " "));
    repeat constructor.
Defined.

Lemma SDK_init_refuses_blank_endpoint_witness :
  SDK_init (Some "   ") = Raise (Exn "ValueError" "unsupported Ethereum endpoint ").
Proof.
  apply (SDK_init_refuses_blank_endpoint "   "). repeat constructor.
Defined.

Lemma SDK_init_secure_schemes_witness :
  SDK_init (Some " https://mainnet.example ") =
    Ok (if startswith (strip " https://mainnet.example ") "https"
        then HTTPProvider (strip " https://mainnet.example ")
        else WebsocketProvider (strip " https://mainnet.example ")).
Proof.
  apply (SDK_init_secure_schemes " https://mainnet.example "). left. reflexivity.
Defined.

Lemma completion_never_overwrites_witness :
  deref 0 (snd (complete_fields good_web3 0 alice (store_of bare_intent))) !! "value"
  = Some (VInt 5).
Proof.
  apply (completion_never_overwrites good_web3 0%nat alice (store_of bare_intent)
           "value" (VInt 5)).
  vm_compute. reflexivity.
Defined.
